(** * Argo Workflows AWS executor plugin: request validation, dispatch,
    status normalisation and reply building.

    Shallow embedding of [request.go], [plugin.go] (the status-based
    handler), [aws_step_function.go] and the unnamed parts holding the
    Glue, SageMaker (two-argument start) and Lambda services.  The remote
    AWS calls are collaborators: each is a parameter of the dispatcher that
    returns what the SDK call and the following [json.Marshal] produce. *)

From stdpp Require Import base gmap strings list fin_maps.
From Stdlib Require Import String Ascii ZArith Lia DecimalString DecimalZ.

Open Scope string_scope.
Open Scope Z_scope.

(* ------------------------------------------------------------------ *)
(** ** request.go *)

Definition allowedServiceNames : gmap string bool :=
  <["amazon_sagemaker_pipelines" := true]>
  (<["aws_glue" := true]>
  (<["aws_step_functions" := true]>
  (<["aws_lambda" := true]> ∅))).

Definition allowedMockStates : gmap string bool :=
  <["running" := true]> (<["success" := true]> ∅).

Definition allowedActions : gmap string bool :=
  <["validate" := true]> (<["execute" := true]> ∅).

(** Go's [_, exists := m[k]]. *)
Definition exists_key (m : gmap string bool) (k : string) : bool :=
  match m !! k with Some _ => true | None => false end.

(** [PluginRequest]; [Parameters] is kept as the JSON text it marshals to. *)
Record PluginRequest := mkPluginRequest {
  Kind : string;
  AccountID : string;
  ServiceName : string;
  Action : string;
  PipelineName : string;
  JobName : string;
  StepFunctionName : string;
  LambdaFunctionName : string;
  Parameters : option string;
  ResourceArn : string;
  RegionName : string;
  Mock : bool;
  MockState : string
}.

Definition set_ResourceArn (r : PluginRequest) (arn : string) : PluginRequest :=
  {| Kind := Kind r; AccountID := AccountID r; ServiceName := ServiceName r;
     Action := Action r; PipelineName := PipelineName r; JobName := JobName r;
     StepFunctionName := StepFunctionName r;
     LambdaFunctionName := LambdaFunctionName r; Parameters := Parameters r;
     ResourceArn := arn; RegionName := RegionName r; Mock := Mock r;
     MockState := MockState r |}.

Definition is_empty (s : string) : bool := String.eqb s "".

(** The [switch req.ServiceName] of [Validate]: the name check and the
    [fmt.Sprintf] of the ARN, per service.  [None] is the case where no
    branch of the switch matches. *)
Definition service_arn (req : PluginRequest) : option (option string * string) :=
  let r := RegionName req in
  let a := AccountID req in
  if String.eqb (ServiceName req) "amazon_sagemaker_pipelines" then
    Some (if is_empty (PipelineName req) then Some "pipeline_name is empty" else None,
          "arn:aws:sagemaker:" ++ r ++ ":" ++ a ++ ":pipeline/" ++ PipelineName req)
  else if String.eqb (ServiceName req) "aws_glue" then
    Some (if is_empty (JobName req) then Some "job_name is empty" else None,
          "arn:aws:glue:" ++ r ++ ":" ++ a ++ ":job/" ++ JobName req)
  else if String.eqb (ServiceName req) "aws_step_functions" then
    Some (if is_empty (StepFunctionName req) then Some "step_function_name is empty" else None,
          "arn:aws:states:" ++ r ++ ":" ++ a ++ ":stateMachine:" ++ StepFunctionName req)
  else if String.eqb (ServiceName req) "aws_lambda" then
    Some (if is_empty (LambdaFunctionName req) then Some "lambda_function_name is empty" else None,
          "arn:aws:lambda:" ++ r ++ ":" ++ a ++ ":function:" ++ LambdaFunctionName req)
  else None.

(** [func (req *PluginRequest) Validate() error]: the pointer receiver is
    modelled by returning the request as it is after the call together
    with the returned error ([None] for [nil]). *)
Definition Validate (req : PluginRequest) : PluginRequest * option string :=
  if is_empty (AccountID req) then (req, Some "account_id is empty")
  else if is_empty (ServiceName req) then (req, Some "service is empty")
  else if is_empty (Action req) then (req, Some "action is empty")
  else if is_empty (RegionName req) then (req, Some "region name is empty")
  else if negb (exists_key allowedServiceNames (ServiceName req)) then
    (req, Some ("service '" ++ ServiceName req ++ "' is not supported"))
  else if negb (exists_key allowedActions (Action req)) then
    (req, Some ("action '" ++ Action req ++ "' is not supported"))
  else
    let (req', serr) :=
      match service_arn req with
      | Some (Some e, _) => (req, Some e)
      | Some (None, arn) => (set_ResourceArn req arn, None)
      | None => (req, None)
      end in
    match serr with
    | Some e => (req', Some e)
    | None =>
        if Mock req' then
          if is_empty (MockState req') then (req', Some "mock state is empty")
          else if negb (exists_key allowedMockStates (MockState req')) then
            (req', Some ("mock state '" ++ MockState req' ++ "' is not supported"))
          else (req', None)
        else (req', None)
    end.

(* ------------------------------------------------------------------ *)
(** ** Responses and execution records *)

(** [PluginResponse]: [Status] is the [PluginWorkflowStatus] integer,
    [RequeueDuration] is the optional duration in seconds, and the two
    errors are kept as the text their [Error()] method returns. *)
Record PluginResponse := mkPluginResponse {
  Message : string;
  Status : Z;
  ShouldRequeue : bool;
  RequeueDuration : option Z;
  RequestError : option string;
  ExecutionError : option string
}.

(** [&PluginResponse{}] *)
Definition empty_response : PluginResponse :=
  mkPluginResponse "" 0 false None None None.

(** The [&PluginResponse{ExecutionError: e, Status: s}] of every failing
    collaborator step. *)
Definition exec_error_response (e : string) (s : Z) : PluginResponse :=
  mkPluginResponse "" s false None None (Some e).

(** Modelled from the spec: the [PluginWorkflow] struct is not under src/;
    the code reads and writes its fields [ID], [Status] and [Message] and
    calls its [Lock]/[Unlock] (an embedded mutex).  The spec's
    ExecutionRecord: the external execution id and, for asynchronous
    invocation, a guarded status/message pair. *)
Record PluginWorkflow := mkPluginWorkflow {
  ID : string;
  wfStatus : string;
  wfMessage : string
}.

(** What one collaborator operation yields: the session creation
    ([session.NewSession]), the SDK call and the [json.Marshal] of its
    output are run in this order, and the first failure is returned. *)
Inductive aws_result (A : Type) :=
| SessionError (e : string)
| CallError (e : string)
| PackError (e : string)
| CallOk (out : A) (json : string).
Arguments SessionError {A} e.
Arguments CallError {A} e.
Arguments PackError {A} e.
Arguments CallOk {A} out json.

(** The remote operations the dispatcher calls; a start returns the id of
    the new execution, a poll returns the native status token. *)
Record Collaborators := mkCollaborators {
  DescribePipeline : string -> aws_result unit;
  StartPipelineExecution : string -> aws_result string;
  DescribePipelineExecution : string -> aws_result string;
  GetJob : string -> aws_result unit;
  StartJobRun : string -> aws_result string;
  GetJobRun : string -> string -> aws_result string;
  DescribeStateMachine : string -> aws_result unit;
  StartExecution : string -> aws_result string;
  DescribeExecution : string -> aws_result string;
  GetFunction : string -> aws_result unit
}.

(** The Execution Tracker, [ex.Workflows : map[string]*PluginWorkflow]. *)
Abbreviation Tracker := (gmap string PluginWorkflow).

(* ------------------------------------------------------------------ *)
(** ** Existence checks ([CheckIf...Exists]) *)

(** The shape shared by the four [CheckIf...Exists] functions; [what] is
    the service wording of the error messages. *)
Definition check_exists (describe_what pack_what : string)
    (r : aws_result unit) : PluginResponse :=
  match r with
  | SessionError e => exec_error_response ("failed to create aws session: " ++ e) 2
  | CallError e => exec_error_response ("failed to describe " ++ describe_what ++ ": " ++ e) 2
  | PackError e => exec_error_response ("failed to pack " ++ pack_what ++ " check response: " ++ e) 2
  | CallOk _ b => mkPluginResponse b 1 false None None None
  end.

Definition CheckIfSageMakerPipelineExists (C : Collaborators) (req : PluginRequest) :=
  check_exists "amazon sagemaker pipeline" "amazon sagemaker pipeline"
    (DescribePipeline C (ResourceArn req)).
Definition CheckIfGlueJobExists (C : Collaborators) (req : PluginRequest) :=
  check_exists "aws glue job" "aws glue job" (GetJob C (ResourceArn req)).
Definition CheckIfStepFunctionExists (C : Collaborators) (req : PluginRequest) :=
  check_exists "aws step function" "aws step function"
    (DescribeStateMachine C (ResourceArn req)).
Definition CheckIfLambdaFunctionExists (C : Collaborators) (req : PluginRequest) :=
  check_exists "aws lambda function" "aws lambda function"
    (GetFunction C (ResourceArn req)).

(* ------------------------------------------------------------------ *)
(** ** Starts *)

(** The shape shared by [StartSageMakerPipelineExecution],
    [StartGlueJobExecution] and [StartStepFunctionExecution]: note that
    the session failure sets no [Status] (it stays 0), as in the source. *)
Definition start_execution (start_what pack_what no_id_msg : string)
    (r : aws_result string) (workflowID : string) (wfs : Tracker)
    : PluginResponse * Tracker :=
  match r with
  | SessionError e =>
      (mkPluginResponse "" 0 false None None
         (Some ("failed to create aws session: " ++ e)), wfs)
  | CallError e => (exec_error_response ("failed to start " ++ start_what ++ ": " ++ e) 2, wfs)
  | PackError e =>
      (exec_error_response ("failed to pack " ++ pack_what ++ " start response: " ++ e) 2, wfs)
  | CallOk id b =>
      if is_empty id then (exec_error_response no_id_msg 2, wfs)
      else (mkPluginResponse b 3 true (Some 60) None None,
            <[workflowID := mkPluginWorkflow id "" ""]> wfs)
  end.

Definition StartSageMakerPipelineExecution (C : Collaborators) (req : PluginRequest)
    (workflowID : string) (wfs : Tracker) :=
  start_execution "amazon sagemaker pipeline" "amazon sagemaker pipeline"
    "amazon sagemaker pipeline start response has no execution ARN"
    (StartPipelineExecution C (ResourceArn req)) workflowID wfs.
Definition StartGlueJobExecution (C : Collaborators) (req : PluginRequest)
    (workflowID : string) (wfs : Tracker) :=
  start_execution "aws glue job" "aws glue job"
    "aws glue job start response has no job run id"
    (StartJobRun C (ResourceArn req)) workflowID wfs.
Definition StartStepFunctionExecution (C : Collaborators) (req : PluginRequest)
    (workflowID : string) (wfs : Tracker) :=
  start_execution "aws step function" "aws step function"
    "aws step function start response has no execution ARN"
    (StartExecution C (ResourceArn req)) workflowID wfs.

(** [StartLambdaFunctionExecution]: the record is stored before the
    detached [go InvokeLambdaFunctionAsync] is spawned; that unit of work
    is modelled on its own below. *)
Definition lambda_initial_record : PluginWorkflow :=
  mkPluginWorkflow "" "RUNNING" "running aws lambda function async execution".

Definition StartLambdaFunctionExecution (req : PluginRequest) (workflowID : string)
    (wfs : Tracker) : PluginResponse * Tracker :=
  (mkPluginResponse "started aws lambda function async execution" 3 true (Some 5) None None,
   <[workflowID := lambda_initial_record]> wfs).

(* ------------------------------------------------------------------ *)
(** ** Polls and the status normaliser *)

(** The [switch] on the native status token closing each poll function:
    [b] is the marshalled collaborator output. *)
Definition running_response (b : string) (secs : Z) : PluginResponse :=
  mkPluginResponse b 3 true (Some secs) None None.

(** [switch *output.PipelineExecutionStatus] *)
Definition sagemaker_status (b token : string) : PluginResponse :=
  if String.eqb token "Succeeded" then mkPluginResponse b 1 false None None None
  else if String.eqb token "Stopped" || String.eqb token "Failed" then
    mkPluginResponse b 2 false None None None
  else running_response b 60.

(** [switch *output.JobRun.JobRunState] *)
Definition glue_status (b token : string) : PluginResponse :=
  if String.eqb token "SUCCEEDED" then mkPluginResponse b 1 false None None None
  else if String.eqb token "STOPPED" || String.eqb token "FAILED"
          || String.eqb token "ERROR" || String.eqb token "TIMEOUT" then
    mkPluginResponse b 2 false None None None
  else running_response b 60.

(** [switch *output.Status] of a Step Functions execution *)
Definition step_function_status (b token : string) : PluginResponse :=
  if String.eqb token "SUCCEEDED" then mkPluginResponse b 1 false None None None
  else if String.eqb token "TIMED_OUT" || String.eqb token "FAILED"
          || String.eqb token "ABORTED" then
    mkPluginResponse b 2 false None None None
  else running_response b 60.

(** The shape shared by the three remote poll functions; every failing
    step sets [Status: 2]. *)
Definition poll_execution (call_what pack_what : string)
    (normalize : string -> string -> PluginResponse)
    (r : aws_result string) : PluginResponse :=
  match r with
  | SessionError e => exec_error_response ("failed to create aws session: " ++ e) 2
  | CallError e => exec_error_response ("failed to " ++ call_what ++ ": " ++ e) 2
  | PackError e =>
      exec_error_response ("failed to pack " ++ pack_what ++ " execution response: " ++ e) 2
  | CallOk token b => normalize b token
  end.

Definition CheckSageMakerPipelineExecution (C : Collaborators) (req : PluginRequest)
    (executionID : string) : PluginResponse :=
  poll_execution "describe amazon sagemaker pipeline execution" "amazon sagemaker pipeline"
    sagemaker_status (DescribePipelineExecution C executionID).
Definition CheckGlueJobExecution (C : Collaborators) (req : PluginRequest)
    (jobRunID : string) : PluginResponse :=
  poll_execution "get aws glue job run" "aws glue job"
    glue_status (GetJobRun C jobRunID (JobName req)).
Definition CheckStepFunctionExecution (C : Collaborators) (req : PluginRequest)
    (executionID : string) : PluginResponse :=
  poll_execution "describe aws step function execution" "aws step function"
    step_function_status (DescribeExecution C executionID).

(** [CheckLambdaFunctionExecution]: reads the record's guarded pair. *)
Definition lambda_status (wf : PluginWorkflow) : PluginResponse :=
  if String.eqb (wfStatus wf) "SUCCEEDED" then mkPluginResponse (wfMessage wf) 1 false None None None
  else if String.eqb (wfStatus wf) "FAILED" then mkPluginResponse (wfMessage wf) 2 false None None None
  else running_response (wfMessage wf) 5.

Definition CheckLambdaFunctionExecution (req : PluginRequest) (wf : PluginWorkflow)
    : PluginResponse :=
  lambda_status wf.

(* ------------------------------------------------------------------ *)
(** ** handleTemplateExecute *)

(** [GenericError.WithArgs] applied to one [error] argument: a [nil]
    argument makes the whole result [nil]. *)
Definition with_error_arg (format_prefix : string) (err : option string) : option string :=
  match err with
  | Some e => Some (format_prefix ++ e)
  | None => None
  end.

(** How far the handler gets in decoding the body, up to and including the
    lookup of the ["awf-aws-plugin"] key.  [BodyParseError None] is the
    case where [json.Unmarshal] succeeds but [args.Workflow] or
    [args.Template] is [nil]. *)
Inductive template_body :=
| BodyReadError (e : string)
| BodyParseError (e : option string)
| PluginMarshalError (e : string)
| PluginUnmarshalError (e : string)
| PluginInputMissing
| PluginInputFound (uid : string) (input : PluginRequest).

Record HTTPRequest := mkHTTPRequest {
  Method : string;
  ContentType : string;
  Body : template_body
}.

Definition request_error_response (e : option string) : PluginResponse :=
  mkPluginResponse "" 2 false None e None.

(** The mock switch and the service switch, run on a validated input:
    [wfID] is the workflow's [Uid]. *)
Definition dispatch (C : Collaborators) (wfs : Tracker) (wfID : string)
    (pluginInput : PluginRequest) : PluginResponse * Tracker :=
  let mocked :=
    if Mock pluginInput then
      if String.eqb (MockState pluginInput) "success" then
        Some (mkPluginResponse "" 1 false None None None)
      else if String.eqb (MockState pluginInput) "error" then
        Some (mkPluginResponse "" 2 false None None
                (Some "failed execution: expected mock error"))
      else if String.eqb (MockState pluginInput) "running" then
        Some (mkPluginResponse "" 3 true None None None)
      else None
    else None in
  match mocked with
  | Some resp => (resp, wfs)
  | None =>
      let svc := ServiceName pluginInput in
      let act := Action pluginInput in
      if String.eqb svc "amazon_sagemaker_pipelines" then
        if String.eqb act "validate" then (CheckIfSageMakerPipelineExists C pluginInput, wfs)
        else if String.eqb act "execute" then
          match wfs !! wfID with
          | Some pw => (CheckSageMakerPipelineExecution C pluginInput (ID pw), wfs)
          | None => StartSageMakerPipelineExecution C pluginInput wfID wfs
          end
        else (empty_response, wfs)
      else if String.eqb svc "aws_glue" then
        if String.eqb act "validate" then (CheckIfGlueJobExists C pluginInput, wfs)
        else if String.eqb act "execute" then
          match wfs !! wfID with
          | Some pw => (CheckGlueJobExecution C pluginInput (ID pw), wfs)
          | None => StartGlueJobExecution C pluginInput wfID wfs
          end
        else (empty_response, wfs)
      else if String.eqb svc "aws_step_functions" then
        if String.eqb act "validate" then (CheckIfStepFunctionExists C pluginInput, wfs)
        else if String.eqb act "execute" then
          match wfs !! wfID with
          | Some pw => (CheckStepFunctionExecution C pluginInput (ID pw), wfs)
          | None => StartStepFunctionExecution C pluginInput wfID wfs
          end
        else (empty_response, wfs)
      else if String.eqb svc "aws_lambda" then
        if String.eqb act "validate" then (CheckIfLambdaFunctionExists C pluginInput, wfs)
        else if String.eqb act "execute" then
          match wfs !! wfID with
          | Some pw => (CheckLambdaFunctionExecution pluginInput pw, wfs)
          | None => StartLambdaFunctionExecution pluginInput wfID wfs
          end
        else (empty_response, wfs)
      else
        (request_error_response (Some "malformed plugin input: unsupported service name"), wfs)
  end.

(** The deferred reply builder of [handleTemplateExecute]. *)
Inductive NodePhase := NodeSucceeded | NodeError | NodeRunning.

Record NodeResult := mkNodeResult { Phase : NodePhase; NodeMessage : string }.

(** What the handler writes: [BadRequest] is the bare 400 of a request
    error; [Reply] is the 200 with the marshalled [ExecuteTemplateReply]
    (its [json.Marshal] cannot fail on these values). *)
Inductive HTTPReply :=
| BadRequest
| Reply (node : NodeResult) (requeue : option Z).

Definition default_message (m d : string) : string := if is_empty m then d else m.

Definition error_message (resp : PluginResponse) (fallback : string) : string :=
  if is_empty (Message resp) then
    match ExecutionError resp with Some e => e | None => fallback end
  else Message resp.

Definition build_reply (resp : PluginResponse) : HTTPReply :=
  match RequestError resp with
  | Some _ => BadRequest
  | None =>
      if Z.eqb (Status resp) 1 then
        Reply (mkNodeResult NodeSucceeded (default_message (Message resp) "success"))
              (RequeueDuration resp)
      else if Z.eqb (Status resp) 2 then
        Reply (mkNodeResult NodeError (error_message resp "error")) (RequeueDuration resp)
      else if Z.eqb (Status resp) 3 then
        Reply (mkNodeResult NodeRunning (default_message (Message resp) "running"))
              (match RequeueDuration resp with Some d => Some d | None => Some 60 end)
      else
        Reply (mkNodeResult NodeError (error_message resp "unknown error")) (RequeueDuration resp)
  end.

(** The handler body up to the deferred builder: the [resp] it leaves and
    the tracker after the call. *)
Definition template_execute (C : Collaborators) (wfs : Tracker) (req : HTTPRequest)
    : PluginResponse * Tracker :=
  if negb (String.eqb (Method req) "POST") then
    (request_error_response (Some "malformed request: method is not POST"), wfs)
  else if negb (String.eqb (ContentType req) "application/json") then
    (request_error_response (Some "content type header value is unsupported"), wfs)
  else
    match Body req with
    | BodyReadError e =>
        (request_error_response (with_error_arg "failed to read request body: " (Some e)), wfs)
    | BodyParseError e =>
        (request_error_response (with_error_arg "failed to parse request body: " e), wfs)
    | PluginMarshalError e =>
        (request_error_response (with_error_arg "failed to parse request body: " (Some e)), wfs)
    | PluginUnmarshalError e =>
        (request_error_response (with_error_arg "failed to parse request body: " (Some e)), wfs)
    | PluginInputMissing =>
        (request_error_response (Some "malformed plugin input: plugin input not found"), wfs)
    | PluginInputFound uid input =>
        let (input', verr) := Validate input in
        match verr with
        | Some e => (request_error_response (Some ("malformed plugin input: " ++ e)), wfs)
        | None => dispatch C wfs uid input'
        end
    end.

Definition handleTemplateExecute (C : Collaborators) (wfs : Tracker) (req : HTTPRequest)
    : HTTPReply * Tracker :=
  let (resp, wfs') := template_execute C wfs req in (build_reply resp, wfs').

(* ------------------------------------------------------------------ *)
(** ** InvokeLambdaFunctionAsync *)

(** A Go panic value: an [error] (every runtime fault, such as a nil
    dereference, is a [runtime.Error]) or any other value. *)
Inductive panic_value :=
| PanicError (msg : string)
| PanicOther (v : string).   (* e.g. [panic("...")] with a string *)

(** How the body of the detached unit of work ends: one of its four
    [if err != nil] exits, a panic anywhere in it, or success with the
    marshalled [InvokeOutput]. *)
Inductive lambda_run :=
| RunSessionError (e : string)
| RunPayloadError (e : string)
| RunInvokeError (e : string)
| RunPackError (e : string)
| RunPanic (p : panic_value)
| RunOk (b : string).

(** The operations on the record, in order. *)
Inductive wf_event :=
| WfLock
| WfSetStatus (s : string)
| WfSetMessage (m : string)
| WfUnlock.

Definition apply_event (wf : PluginWorkflow) (ev : wf_event) : PluginWorkflow :=
  match ev with
  | WfSetStatus s => mkPluginWorkflow (ID wf) s (wfMessage wf)
  | WfSetMessage m => mkPluginWorkflow (ID wf) (wfStatus wf) m
  | _ => wf
  end.

Definition apply_events (wf : PluginWorkflow) (evs : list wf_event) : PluginWorkflow :=
  fold_left apply_event evs wf.

(** [wf.Lock(); wf.Status = s; wf.Message = m; wf.Unlock()] *)
Definition guarded_write (s m : string) : list wf_event :=
  [WfLock; WfSetStatus s; WfSetMessage m; WfUnlock].

(** How the goroutine ends: normally, or with a panic nobody recovers,
    which terminates the process. *)
Inductive goroutine_end :=
| Finished
| ProcessCrash (v : string).

(** The deferred [recover]: [err := r.(error)] is an unchecked type
    assertion, which itself panics when [r] is not an [error]. *)
Definition recover_handler (p : panic_value) : list wf_event * goroutine_end :=
  match p with
  | PanicError m => (guarded_write "FAILED" m, Finished)
  | PanicOther _ => ([], ProcessCrash "interface conversion: interface {} is string, not error")
  end.

Definition InvokeLambdaFunctionAsync (run : lambda_run) (wf : PluginWorkflow)
    : PluginWorkflow * list wf_event * goroutine_end :=
  let (evs, fin) :=
    match run with
    | RunSessionError e => (guarded_write "FAILED" ("failed to create aws session: " ++ e), Finished)
    | RunPayloadError e =>
        (guarded_write "FAILED" ("failed to build aws lambda invocation payload: " ++ e), Finished)
    | RunInvokeError e => (guarded_write "FAILED" ("aws lambda invocation failed: " ++ e), Finished)
    | RunPackError e =>
        (guarded_write "FAILED" ("failed to pack aws lambda invocation response: " ++ e), Finished)
    | RunPanic p => recover_handler p
    | RunOk b => (guarded_write "SUCCEEDED" b, Finished)
    end in
  (apply_events wf evs, evs, fin).

(* ------------------------------------------------------------------ *)
(** ** Concrete inputs *)

(** A request of the shape the engine sends (cf. the plugin tests). *)
Definition sample_request (svc action : string) (mock : bool) (mock_state : string)
    : PluginRequest :=
  mkPluginRequest "" "100000000002" svc action "MyPipeline" "MyGlueJob" "MyStateMachine"
    "MyFunction" None "" "us-west-2" mock mock_state.

Definition post (uid : string) (input : PluginRequest) : HTTPRequest :=
  mkHTTPRequest "POST" "application/json" (PluginInputFound uid input).

(** Collaborators that succeed: starts return [start_id], polls [token]. *)
Definition sample_collaborators (start_id token : string) : Collaborators :=
  mkCollaborators
    (fun _ => CallOk tt "{}") (fun _ => CallOk start_id "{}") (fun _ => CallOk token "{}")
    (fun _ => CallOk tt "{}") (fun _ => CallOk start_id "{}") (fun _ _ => CallOk token "{}")
    (fun _ => CallOk tt "{}") (fun _ => CallOk start_id "{}") (fun _ => CallOk token "{}")
    (fun _ => CallOk tt "{}").



(* ------------------------------------------------------------------ *)
(** ** status.go *)

Definition UNKNOWN : Z := 0.
Definition SUCCESS : Z := 1.
Definition RUNNING : Z := 2.
Definition ERROR : Z := 3.

(** [fmt.Sprintf("%d", n)] of an integer: its decimal digits, with a
    leading ['-'] when negative. *)
Definition go_itoa (n : Z) : string := NilEmpty.string_of_int (Z.to_int n).

(** [func (m PluginWorkflowStatus) String() string] *)
Definition PluginWorkflowStatus_String (m : Z) : string :=
  if Z.eqb m SUCCESS then "success"
  else if Z.eqb m RUNNING then "running"
  else if Z.eqb m ERROR then "error"
  else "PluginWorkflowStatus(" ++ go_itoa m ++ ")".

(* ------------------------------------------------------------------ *)
(** ** error.go *)

(** A value passed as an operand of type [interface{}]: the untyped [nil]
    interface (which is also what a [nil] [error] variable becomes), a
    non-nil [error] (the name of its dynamic type and the text of its
    [Error()]), or a [string]. *)
Inductive go_value :=
| GoNil
| GoError (type_name msg : string)
| GoString (s : string).

(** A Go [error] variable used as an operand. *)
Definition error_operand (type_name : string) (e : option string) : go_value :=
  match e with Some m => GoError type_name m | None => GoNil end.

(** [DetailedError{err: fmt.Errorf("%w", e), v: v}]: [err] is kept as
    the text of [err.Error()], which for [fmt.Errorf("%w", e)] is the
    text of the wrapped [GenericError] [e]. *)
Record DetailedError := mkDetailedError {
  err : string;
  v : list go_value
}.

(** One turn of the [for _, vv := range v] loop of [WithArgs] on the pair
    [(hasErr, hasNil)].  The [if err == nil { return nil }] of its
    [case error] never fires: a value matching [case error] is a non-nil
    interface. *)
Definition with_args_step (flags : bool * bool) (vv : go_value) : bool * bool :=
  match vv with
  | GoError _ _ => (true, snd flags)
  | GoNil => (fst flags, true)
  | GoString _ => flags
  end.

(** [func (e GenericError) WithArgs(v ...interface{}) error]: [None] is
    the [nil] it returns. *)
Definition WithArgs (e : string) (vs : list go_value) : option DetailedError :=
  let '(hasErr, hasNil) := fold_left with_args_step vs (false, false) in
  if hasNil && negb hasErr then None
  else Some (mkDetailedError e vs).

(** How [fmt] prints one operand for the verb [%v] or [%s]: an [error]
    by its [Error()], a string as it is, and the nil interface as
    [<nil>] for [%v] and as the bad-verb text [%!s(<nil>)] for [%s]. *)
Definition print_arg (verb : ascii) (x : go_value) : string :=
  match x with
  | GoNil => if Ascii.eqb verb "v"%char then "<nil>" else "%!" ++ String verb "(<nil>)"
  | GoError _ m => m
  | GoString s => s
  end.

(** The loop of [fmt]'s [doPrintf] on the directives this code uses:
    ordinary characters, [%%], and [%v] and [%s] without flags, width or
    precision; a trailing lone [%] prints [%!(NOVERB)] and a verb with no
    operand left prints [%!v(MISSING)].  Any other directive is outside
    this fragment ([None]).  Returns the text and the unused operands. *)
Fixpoint doPrintf (format : string) (a : list go_value) : option (string * list go_value) :=
  match format with
  | EmptyString => Some ("", a)
  | String c rest =>
      if negb (Ascii.eqb c "%"%char) then
        option_map (fun r => (String c (fst r), snd r)) (doPrintf rest a)
      else
        match rest with
        | EmptyString => Some ("%!(NOVERB)", a)
        | String verb rest' =>
            if Ascii.eqb verb "%"%char then
              option_map (fun r => (String "%"%char (fst r), snd r)) (doPrintf rest' a)
            else if Ascii.eqb verb "v"%char || Ascii.eqb verb "s"%char then
              match a with
              | [] =>
                  option_map (fun r => ("%!" ++ String verb "(MISSING)" ++ fst r, snd r))
                    (doPrintf rest' [])
              | x :: a' =>
                  option_map (fun r => (print_arg verb x ++ fst r, snd r)) (doPrintf rest' a')
              end
            else None
        end
  end.

(** An operand left over, as [fmt] lists it in the [%!(EXTRA ...)]
    suffix: [<nil>] or [type=value]. *)
Definition extra_operand (x : go_value) : string :=
  match x with
  | GoNil => "<nil>"
  | GoError t m => t ++ "=" ++ m
  | GoString s => "string=" ++ s
  end.

(** [fmt.Sprintf(format, a...)] on that fragment. *)
Definition Sprintf (format : string) (a : list go_value) : option string :=
  match doPrintf format a with
  | None => None
  | Some (s, []) => Some s
  | Some (s, extra) =>
      Some (s ++ "%!(EXTRA " ++ String.concat ", " (map extra_operand extra) ++ ")")
  end.

(** [func (e DetailedError) Error() string] *)
Definition DetailedError_Error (e : DetailedError) : option string := Sprintf (err e) (v e).

(* ------------------------------------------------------------------ *)
(** ** plugin.go: Configure *)

(** The fields of [ExecutorPlugin] that [Configure] reads or sets: the
    logger by whether it is set (its level is not modelled), the cluster
    config and client as opaque handles, and [Workflows] ([None] for a
    [nil] map). *)
Record ExecutorPlugin := mkExecutorPlugin {
  Port : Z;
  HasLogger : bool;
  ClientConfig : option string;
  Client : option string;
  DebugEnabled : bool;
  Workflows : option Tracker
}.

(** The two calls that can fail: [rest.InClusterConfig()] and
    [wfclientset.NewForConfig]; [inl] is the error. *)
Record ClusterEnv := mkClusterEnv {
  InClusterConfig : string + string;
  NewForConfig : string -> string + string
}.

Definition with_logger (ex : ExecutorPlugin) : ExecutorPlugin :=
  mkExecutorPlugin (Port ex) true (ClientConfig ex) (Client ex) (DebugEnabled ex) (Workflows ex).
Definition with_config (ex : ExecutorPlugin) (c : string) : ExecutorPlugin :=
  mkExecutorPlugin (Port ex) (HasLogger ex) (Some c) (Client ex) (DebugEnabled ex) (Workflows ex).
Definition with_client (ex : ExecutorPlugin) (c : string) : ExecutorPlugin :=
  mkExecutorPlugin (Port ex) (HasLogger ex) (ClientConfig ex) (Some c) (DebugEnabled ex) (Workflows ex).
Definition with_workflows (ex : ExecutorPlugin) (w : Tracker) : ExecutorPlugin :=
  mkExecutorPlugin (Port ex) (HasLogger ex) (ClientConfig ex) (Client ex) (DebugEnabled ex) (Some w).

(** [func (ex *ExecutorPlugin) Configure(flags *pflag.FlagSet) error]:
    the plugin after the call and the returned error. *)
Definition Configure (env : ClusterEnv) (ex0 : ExecutorPlugin) : ExecutorPlugin * option string :=
  let ex1 := if HasLogger ex0 then ex0 else with_logger ex0 in
  let cfg :=
    match ClientConfig ex1 with
    | None => match InClusterConfig env with inl e => inl e | inr c => inr (with_config ex1 c) end
    | Some _ => inr ex1
    end in
  match cfg with
  | inl e => (ex1, Some e)
  | inr ex2 =>
      let cl :=
        match Client ex2, ClientConfig ex2 with
        | None, Some c =>
            match NewForConfig env c with inl e => inl e | inr k => inr (with_client ex2 k) end
        | _, _ => inr ex2
        end in
      match cl with
      | inl e => (ex2, Some e)
      | inr ex3 =>
          match Workflows ex3 with
          | None => (with_workflows ex3 ∅, None)
          | Some _ => (ex3, None)
          end
      end
  end.

(* ------------------------------------------------------------------ *)
(** ** The existence check a [validate] request calls *)

Definition existence_call (C : Collaborators) (input : PluginRequest) : option (aws_result unit) :=
  let svc := ServiceName input in
  if String.eqb svc "amazon_sagemaker_pipelines" then Some (DescribePipeline C (ResourceArn input))
  else if String.eqb svc "aws_glue" then Some (GetJob C (ResourceArn input))
  else if String.eqb svc "aws_step_functions" then Some (DescribeStateMachine C (ResourceArn input))
  else if String.eqb svc "aws_lambda" then Some (GetFunction C (ResourceArn input))
  else None.

(** The shape of a record the handler adds: the Lambda placeholder, or a
    record holding a non-empty external id. *)
Definition added_record (pw : PluginWorkflow) : Prop :=
  pw = lambda_initial_record \/ (ID pw <> "" /\ wfStatus pw = "" /\ wfMessage pw = "").

(* ------------------------------------------------------------------ *)
(** ** Spec-side definitions used in the statements *)

Definition requeue_iff_running (resp : PluginResponse) : Prop :=
  ShouldRequeue resp = true <-> Status resp = 3.

(** The shape the spec gives every table: one success token, a list of
    explicit terminal-failure tokens, Running for everything else. *)
Definition canonical_of (succeeded : string) (failures : list string) (token : string) : Z :=
  if String.eqb token succeeded then 1
  else if existsb (String.eqb token) failures then 2
  else 3.

(** The service's poll operation applied to a tracked record, as the
    spec's Dispatcher names it: the record's id for the three remote
    services, the record itself for Lambda. *)
Definition poll_operation (C : Collaborators) (input : PluginRequest) (pw : PluginWorkflow)
    : PluginResponse :=
  let svc := ServiceName input in
  if String.eqb svc "amazon_sagemaker_pipelines" then CheckSageMakerPipelineExecution C input (ID pw)
  else if String.eqb svc "aws_glue" then CheckGlueJobExecution C input (ID pw)
  else if String.eqb svc "aws_step_functions" then CheckStepFunctionExecution C input (ID pw)
  else if String.eqb svc "aws_lambda" then CheckLambdaFunctionExecution input pw
  else empty_response.

(** The start collaborator of a service with a remote run ([None] for
    Lambda, whose start only spawns the detached runner). *)
Definition start_call (C : Collaborators) (input : PluginRequest) : option (aws_result string) :=
  let svc := ServiceName input in
  if String.eqb svc "amazon_sagemaker_pipelines" then Some (StartPipelineExecution C (ResourceArn input))
  else if String.eqb svc "aws_glue" then Some (StartJobRun C (ResourceArn input))
  else if String.eqb svc "aws_step_functions" then Some (StartExecution C (ResourceArn input))
  else None.

(** Whether character [c] occurs in [s]. *)
Fixpoint has_char (c : ascii) (s : string) : bool :=
  match s with
  | EmptyString => false
  | String d s' => Ascii.eqb c d || has_char c s'
  end.

(** The per-service name field the chosen service requires is empty. *)
Definition required_name_empty (req : PluginRequest) : Prop :=
  (ServiceName req = "amazon_sagemaker_pipelines" /\ PipelineName req = "")
  \/ (ServiceName req = "aws_glue" /\ JobName req = "")
  \/ (ServiceName req = "aws_step_functions" /\ StepFunctionName req = "")
  \/ (ServiceName req = "aws_lambda" /\ LambdaFunctionName req = "").

(* ================================================================== *)
(** * Properties *)

Ltac requeue_resp := unfold requeue_iff_running; simpl; split; congruence.

Example validate_sample :
  snd (Validate (sample_request "aws_glue" "execute" false "")) = None.
Proof. reflexivity. Qed.

Example mock_running_reply :
  fst (handleTemplateExecute (sample_collaborators "id" "x") ∅
         (post "u" (sample_request "amazon_sagemaker_pipelines" "execute" true "running")))
  = Reply (mkNodeResult NodeRunning "running") (Some 60).
Proof. reflexivity. Qed.

(** ** The lookup tables of request.go *)

Lemma exists_key_allowedMockStates (s : string) :
  exists_key allowedMockStates s = true <-> s = "running" \/ s = "success".
Proof.
  unfold exists_key, allowedMockStates.
  rewrite !lookup_insert, lookup_empty.
  repeat case_decide; subst; intuition congruence.
Qed.

Lemma exists_key_allowedServiceNames (s : string) :
  exists_key allowedServiceNames s = true <->
  s = "amazon_sagemaker_pipelines" \/ s = "aws_glue" \/ s = "aws_step_functions"
  \/ s = "aws_lambda".
Proof.
  unfold exists_key, allowedServiceNames.
  rewrite !lookup_insert, lookup_empty.
  repeat case_decide; subst; intuition congruence.
Qed.

Lemma exists_key_allowedActions (s : string) :
  exists_key allowedActions s = true <-> s = "validate" \/ s = "execute".
Proof.
  unfold exists_key, allowedActions.
  rewrite !lookup_insert, lookup_empty.
  repeat case_decide; subst; intuition congruence.
Qed.

(** ** C1: the [error] mock outcome *)

(** C1 (code_bug).  The spec and the handler's mock switch (its
    [case "error"] branch) expect [mock_state=error] to be accepted and to
    reach a reply with phase Error; [allowedMockStates] lists only
    [running] and [success], so [Validate] rejects it and the handler
    answers with a bare 400 instead. *)
Theorem mock_error_state_rejected :
  Validate (sample_request "amazon_sagemaker_pipelines" "execute" true "error")
  = (set_ResourceArn (sample_request "amazon_sagemaker_pipelines" "execute" true "error")
       "arn:aws:sagemaker:us-west-2:100000000002:pipeline/MyPipeline",
     Some "mock state 'error' is not supported")
  /\ exists_key allowedMockStates "error" = false
  /\ handleTemplateExecute (sample_collaborators "id" "x") ∅
       (post "u" (sample_request "amazon_sagemaker_pipelines" "execute" true "error"))
     = (BadRequest, ∅).
Proof. split; [|split]; reflexivity. Qed.

(** ** C2: should-requeue iff Running *)



Lemma check_exists_requeue (d p : string) (r : aws_result unit) :
  requeue_iff_running (check_exists d p r).
Proof. destruct r; requeue_resp. Qed.

Lemma start_execution_requeue (s p n w : string) (r : aws_result string) (wfs : Tracker) :
  requeue_iff_running (fst (start_execution s p n r w wfs)).
Proof.
  destruct r as [e|e|e|id b]; simpl; try requeue_resp.
  destruct (is_empty id); requeue_resp.
Qed.

Lemma normalizers_requeue (b t : string) :
  requeue_iff_running (sagemaker_status b t) /\ requeue_iff_running (glue_status b t)
  /\ requeue_iff_running (step_function_status b t).
Proof.
  unfold sagemaker_status, glue_status, step_function_status, running_response.
  repeat split; repeat match goal with |- context [if ?c then _ else _] => destruct c end;
    simpl; congruence.
Qed.

Lemma poll_execution_requeue (c p : string) (n : string -> string -> PluginResponse)
    (r : aws_result string) :
  (forall b t, requeue_iff_running (n b t)) ->
  requeue_iff_running (poll_execution c p n r).
Proof. intros Hn. destruct r; simpl; [requeue_resp..|apply Hn]. Qed.

Lemma lambda_status_requeue (wf : PluginWorkflow) : requeue_iff_running (lambda_status wf).
Proof.
  unfold lambda_status, running_response.
  repeat match goal with |- context [if ?c then _ else _] => destruct c end; requeue_resp.
Qed.

Lemma dispatch_requeue (C : Collaborators) (wfs : Tracker) (uid : string)
    (input : PluginRequest) :
  requeue_iff_running (fst (dispatch C wfs uid input)).
Proof.
  unfold dispatch.
  destruct (Mock input);
    [repeat match goal with |- context [if String.eqb (MockState input) ?x then _ else _] =>
       destruct (String.eqb (MockState input) x) end; try requeue_resp |].
  all: cbv zeta.
  all: repeat match goal with
         | |- context [if String.eqb ?a ?b then _ else _] => destruct (String.eqb a b)
         | |- context [match ?wfs !! ?u with _ => _ end] => destruct (wfs !! u)
         end; simpl fst; try requeue_resp.
  all: first [ apply check_exists_requeue | apply start_execution_requeue
             | apply lambda_status_requeue
             | apply poll_execution_requeue; intros; apply normalizers_requeue ].
Qed.

(** C2.  Every response the handler leaves for the reply builder, on every
    path (request and validation errors, mock, existence check, start and
    poll of each service), has [ShouldRequeue = true] exactly when its
    status is Running (3).  The SageMaker functions are those the handler
    calls (two-argument start); [amazon_sagemaker_pipelines.go] holds an
    earlier one-argument version that this handler does not call. *)
Theorem should_requeue_iff_running (C : Collaborators) (wfs : Tracker) (req : HTTPRequest) :
  ShouldRequeue (fst (template_execute C wfs req)) = true
  <-> Status (fst (template_execute C wfs req)) = 3.
Proof.
  unfold template_execute.
  destruct (negb (String.eqb (Method req) "POST")); [requeue_resp|].
  destruct (negb (String.eqb (ContentType req) "application/json")); [requeue_resp|].
  destruct (Body req) as [e|e|e|e| |uid input]; try requeue_resp.
  destruct (Validate input) as [input' [e|]]; [requeue_resp|].
  apply dispatch_requeue.
Qed.

(** ** C3: the status normaliser *)


(** C3.  For each service's poll operation, once the collaborator has
    returned the native token, the canonical status is 1 (Success) for the
    single succeeded token, 2 (Error) for the explicit terminal-failure
    tokens, and 3 (Running) for every other token.  For Lambda the token is
    the status the detached runner wrote into the record.  SageMaker is the
    version the handler calls (see C2). *)
Theorem poll_status_normalised (C : Collaborators) (req : PluginRequest)
    (id token b : string) (wf : PluginWorkflow) :
  (DescribePipelineExecution C id = CallOk token b ->
   Status (CheckSageMakerPipelineExecution C req id)
   = canonical_of "Succeeded" ["Stopped"; "Failed"] token)
  /\ (GetJobRun C id (JobName req) = CallOk token b ->
      Status (CheckGlueJobExecution C req id)
      = canonical_of "SUCCEEDED" ["STOPPED"; "FAILED"; "ERROR"; "TIMEOUT"] token)
  /\ (DescribeExecution C id = CallOk token b ->
      Status (CheckStepFunctionExecution C req id)
      = canonical_of "SUCCEEDED" ["TIMED_OUT"; "FAILED"; "ABORTED"] token)
  /\ Status (CheckLambdaFunctionExecution req wf)
     = canonical_of "SUCCEEDED" ["FAILED"] (wfStatus wf).
Proof.
  unfold CheckSageMakerPipelineExecution, CheckGlueJobExecution,
    CheckStepFunctionExecution, CheckLambdaFunctionExecution, canonical_of.
  repeat split; [intros H; rewrite H..|]; simpl;
    unfold sagemaker_status, glue_status, step_function_status, lambda_status;
    simpl;
    repeat match goal with |- context [String.eqb ?t ?x] => destruct (String.eqb t x) end;
    reflexivity.
Qed.

Lemma poll_status_normalised_witness :
  DescribePipelineExecution (sample_collaborators "id" "Executing") "id"
    = CallOk "Executing" "{}"
  /\ GetJobRun (sample_collaborators "id" "Executing") "id"
       (JobName (sample_request "aws_glue" "execute" false "")) = CallOk "Executing" "{}"
  /\ DescribeExecution (sample_collaborators "id" "Executing") "id" = CallOk "Executing" "{}"
  /\ Status (CheckSageMakerPipelineExecution (sample_collaborators "id" "Executing")
               (sample_request "aws_glue" "execute" false "") "id") = 3.
Proof.
  split; [reflexivity|split; [reflexivity|split; [reflexivity|]]].
  destruct (poll_status_normalised (sample_collaborators "id" "Executing")
              (sample_request "aws_glue" "execute" false "") "id" "Executing" "{}"
              lambda_initial_record) as [H _].
  rewrite (H eq_refl). reflexivity.
Defined.

(** ** Facts about [Validate] *)

Lemma set_ResourceArn_id (r : PluginRequest) : set_ResourceArn r (ResourceArn r) = r.
Proof. destruct r; reflexivity. Qed.

Ltac split_validate H :=
  unfold Validate in H;
  repeat (simpl in H;
          match type of H with
          | context [if ?c then _ else _] => let E := fresh "E" in destruct c eqn:E
          | context [match service_arn ?r with _ => _ end] =>
              let E := fresh "E" in destruct (service_arn r) as [[[?|] ?]|] eqn:E
          end);
  simpl in H; injection H as <- <-.

(** [Validate] writes no field but [ResourceArn]. *)
Lemma Validate_frame (req req' : PluginRequest) (e : option string) :
  Validate req = (req', e) -> req' = set_ResourceArn req (ResourceArn req').
Proof.
  intros H. split_validate H; simpl; symmetry; apply set_ResourceArn_id || reflexivity.
Qed.

(** A request that passes names a supported service and action, and its
    [ResourceArn] is the one the service switch computes. *)
Lemma Validate_ok (req req' : PluginRequest) :
  Validate req = (req', None) ->
  exists_key allowedServiceNames (ServiceName req) = true
  /\ exists_key allowedActions (Action req) = true
  /\ service_arn req = Some (None, ResourceArn req').
Proof.
  intros H. pose proof H as H0. unfold Validate in H.
  destruct (is_empty (AccountID req)); [discriminate|].
  destruct (is_empty (ServiceName req)); [discriminate|].
  destruct (is_empty (Action req)); [discriminate|].
  destruct (is_empty (RegionName req)); [discriminate|].
  destruct (exists_key allowedServiceNames (ServiceName req)) eqn:ES; [|discriminate].
  destruct (exists_key allowedActions (Action req)) eqn:EA; [|discriminate].
  simpl in H. split; [reflexivity|split; [reflexivity|]].
  apply exists_key_allowedServiceNames in ES.
  unfold service_arn in *.
  destruct ES as [ES|[ES|[ES|ES]]]; rewrite ES in *; simpl in *;
    match type of H with context [if ?c then _ else _] => destruct c end;
    simpl in H;
    repeat match type of H with context [if ?c then _ else _] => destruct c end;
    try discriminate; injection H as <-; reflexivity.
Qed.

Lemma Validate_fields (req req' : PluginRequest) (e : option string) :
  Validate req = (req', e) ->
  ServiceName req' = ServiceName req /\ Action req' = Action req /\ Mock req' = Mock req
  /\ MockState req' = MockState req /\ JobName req' = JobName req.
Proof.
  intros H. apply Validate_frame in H.
  repeat split; rewrite H; reflexivity.
Qed.

(** ** C4: a tracked workflow is polled, never restarted *)

(** C4 (corrected).  For a validated [execute] request whose workflow id
    is already tracked, the tracker is left as it is, and - unless the
    request is a mock, which short-circuits to the mock reply - the
    response is the service's poll operation on the recorded execution
    (the recorded id; for Lambda, the record itself); the start operation
    is not called. *)
Theorem execute_tracked_polls (C : Collaborators) (wfs : Tracker) (uid : string)
    (input input' : PluginRequest) (pw : PluginWorkflow) :
  Validate input = (input', None) -> Action input = "execute" -> wfs !! uid = Some pw ->
  snd (template_execute C wfs (post uid input)) = wfs
  /\ (Mock input = false ->
      fst (template_execute C wfs (post uid input)) = poll_operation C input' pw).
Proof.
  intros HV HA HL.
  destruct (Validate_fields _ _ _ HV) as (ES & EA & EM & _).
  destruct (Validate_ok _ _ HV) as (HS & _).
  apply exists_key_allowedServiceNames in HS. rewrite <- ES in HS.
  unfold template_execute, post; simpl. rewrite HV.
  unfold dispatch, poll_operation. rewrite EA, HA, EM. simpl.
  split.
  - destruct (Mock input);
      [repeat match goal with |- context [if String.eqb (MockState input') ?x then _ else _] =>
         destruct (String.eqb (MockState input') x) end; try reflexivity |];
    destruct HS as [H|[H|[H|H]]]; rewrite H; simpl; rewrite HL; reflexivity.
  - intros ->. destruct HS as [H|[H|[H|H]]]; rewrite H; simpl; rewrite HL; reflexivity.
Qed.

Lemma execute_tracked_polls_witness :
  Validate (sample_request "aws_glue" "execute" false "")
  = (set_ResourceArn (sample_request "aws_glue" "execute" false "")
       "arn:aws:glue:us-west-2:100000000002:job/MyGlueJob", None)
  /\ Action (sample_request "aws_glue" "execute" false "") = "execute"
  /\ ({[ "u" := mkPluginWorkflow "jr_1" "" "" ]} : Tracker) !! "u"
     = Some (mkPluginWorkflow "jr_1" "" "")
  /\ snd (template_execute (sample_collaborators "jr_2" "RUNNING")
            {[ "u" := mkPluginWorkflow "jr_1" "" "" ]}
            (post "u" (sample_request "aws_glue" "execute" false "")))
     = {[ "u" := mkPluginWorkflow "jr_1" "" "" ]}.
Proof.
  split; [reflexivity|split; [reflexivity|split; [reflexivity|]]].
  apply (execute_tracked_polls (sample_collaborators "jr_2" "RUNNING")
           {[ "u" := mkPluginWorkflow "jr_1" "" "" ]} "u"
           (sample_request "aws_glue" "execute" false "")
           (set_ResourceArn (sample_request "aws_glue" "execute" false "")
              "arn:aws:glue:us-west-2:100000000002:job/MyGlueJob")
           (mkPluginWorkflow "jr_1" "" "")); reflexivity.
Defined.

(** C4, as stated, fails for a mock request: the workflow id is tracked,
    the request is validated, and the response is the mock reply, not the
    poll of the recorded execution, which here reports Succeeded. *)
Lemma execute_tracked_mock_counterexample :
  fst (template_execute (sample_collaborators "jr_2" "SUCCEEDED")
         {[ "u" := mkPluginWorkflow "jr_1" "" "" ]}
         (post "u" (sample_request "aws_glue" "execute" true "running")))
  <> poll_operation (sample_collaborators "jr_2" "SUCCEEDED")
       (set_ResourceArn (sample_request "aws_glue" "execute" true "running")
          "arn:aws:glue:us-west-2:100000000002:job/MyGlueJob")
       (mkPluginWorkflow "jr_1" "" "").
Proof. vm_compute. discriminate. Qed.

(** ** C5: the derived resource identifier *)

(** C5 (corrected).  A request that passes validation leaves it with the
    [ResourceArn] the service's template computes from region, account and
    name alone (whatever the caller supplied), every other field kept.
    SageMaker and Glue end in [<kind>/<name>]; Step Functions and Lambda
    end in [<kind>:<name>]. *)
Theorem validate_assigns_arn (req req' : PluginRequest) :
  Validate req = (req', None) ->
  req' = set_ResourceArn req (ResourceArn req')
  /\ ((ServiceName req = "amazon_sagemaker_pipelines"
       /\ ResourceArn req' = "arn:aws:sagemaker:" ++ RegionName req ++ ":" ++ AccountID req
                             ++ ":pipeline/" ++ PipelineName req)
      \/ (ServiceName req = "aws_glue"
          /\ ResourceArn req' = "arn:aws:glue:" ++ RegionName req ++ ":" ++ AccountID req
                                ++ ":job/" ++ JobName req)
      \/ (ServiceName req = "aws_step_functions"
          /\ ResourceArn req' = "arn:aws:states:" ++ RegionName req ++ ":" ++ AccountID req
                                ++ ":stateMachine:" ++ StepFunctionName req)
      \/ (ServiceName req = "aws_lambda"
          /\ ResourceArn req' = "arn:aws:lambda:" ++ RegionName req ++ ":" ++ AccountID req
                                ++ ":function:" ++ LambdaFunctionName req)).
Proof.
  intros HV. split; [exact (Validate_frame _ _ _ HV)|].
  destruct (Validate_ok _ _ HV) as (HS & _ & HA).
  apply exists_key_allowedServiceNames in HS.
  unfold service_arn in HA.
  destruct HS as [H|[H|[H|H]]]; rewrite H in HA; simpl in HA;
    destruct (is_empty _); try discriminate; injection HA as HA;
    [left|right; left|right; right; left|right; right; right]; auto.
Qed.

Lemma validate_assigns_arn_witness :
  Validate (sample_request "amazon_sagemaker_pipelines" "validate" false "")
  = (set_ResourceArn (sample_request "amazon_sagemaker_pipelines" "validate" false "")
       "arn:aws:sagemaker:us-west-2:100000000002:pipeline/MyPipeline", None)
  /\ ResourceArn (fst (Validate (sample_request "amazon_sagemaker_pipelines" "validate" false "")))
     = "arn:aws:sagemaker:us-west-2:100000000002:pipeline/MyPipeline".
Proof.
  split; [reflexivity|].
  destruct (validate_assigns_arn (sample_request "amazon_sagemaker_pipelines" "validate" false "")
              (set_ResourceArn (sample_request "amazon_sagemaker_pipelines" "validate" false "")
                 "arn:aws:sagemaker:us-west-2:100000000002:pipeline/MyPipeline") eq_refl)
    as [_ [[_ H]|[[H _]|[[H _]|[H _]]]]]; try discriminate.
  simpl. exact H.
Defined.

Lemma has_char_app (c : ascii) (x y : string) :
  has_char c (x ++ y) = has_char c x || has_char c y.
Proof. induction x as [|d x IH]; simpl; [reflexivity|]. rewrite IH. apply orb_assoc. Qed.

(** C5, as stated, fails for Lambda: the validated ARN contains no [/],
    so it is not [p:s:region:account:k/name] for any [p], [s], [k]. *)
Lemma lambda_arn_counterexample :
  let req := sample_request "aws_lambda" "execute" false "" in
  snd (Validate req) = None
  /\ ~ (exists p s k : string,
          ResourceArn (fst (Validate req))
          = p ++ ":" ++ s ++ ":" ++ RegionName req ++ ":" ++ AccountID req ++ ":" ++ k
              ++ "/" ++ LambdaFunctionName req).
Proof.
  simpl. split; [reflexivity|].
  intros (p & s & k & H). apply (f_equal (has_char "/"%char)) in H.
  rewrite !has_char_app in H. simpl in H. rewrite !orb_true_r in H. discriminate.
Qed.

(** ** C6: the reply builder *)

(** C6.  With no request error: status 1 gives a Succeeded node (message
    ["success"] when none is supplied); 2 gives an Error node whose empty
    message is filled from the execution error, else ["error"]; 3 gives a
    Running node (["running"] by default) with the supplied requeue delay
    or 60 s; any other status, the zero value included, gives an Error
    node.  The Lambda start path supplies a 5 s delay, which is kept. *)
Theorem build_reply_outcomes (resp : PluginResponse) :
  RequestError resp = None ->
  (Status resp = 1 ->
   build_reply resp
   = Reply (mkNodeResult NodeSucceeded
              (if String.eqb (Message resp) "" then "success" else Message resp))
           (RequeueDuration resp))
  /\ (Status resp = 2 ->
      build_reply resp
      = Reply (mkNodeResult NodeError
                 (if String.eqb (Message resp) "" then
                    match ExecutionError resp with Some e => e | None => "error" end
                  else Message resp))
              (RequeueDuration resp))
  /\ (Status resp = 3 ->
      build_reply resp
      = Reply (mkNodeResult NodeRunning
                 (if String.eqb (Message resp) "" then "running" else Message resp))
              (match RequeueDuration resp with Some d => Some d | None => Some 60 end))
  /\ (Status resp <> 1 -> Status resp <> 2 -> Status resp <> 3 ->
      build_reply resp
      = Reply (mkNodeResult NodeError
                 (if String.eqb (Message resp) "" then
                    match ExecutionError resp with Some e => e | None => "unknown error" end
                  else Message resp))
              (RequeueDuration resp))
  /\ (forall (req : PluginRequest) (uid : string) (wfs : Tracker),
        build_reply (fst (StartLambdaFunctionExecution req uid wfs))
        = Reply (mkNodeResult NodeRunning "started aws lambda function async execution")
                (Some 5)).
Proof.
  intros HR. unfold build_reply, default_message, error_message, is_empty. rewrite HR.
  repeat split; intros.
  - rewrite H. reflexivity.
  - rewrite H. reflexivity.
  - rewrite H. reflexivity.
  - apply Z.eqb_neq in H, H0, H1. rewrite H, H0, H1. reflexivity.
Qed.

Lemma build_reply_outcomes_witness :
  RequestError (exec_error_response "failed execution: expected mock error" 2) = None
  /\ build_reply (exec_error_response "failed execution: expected mock error" 2)
     = Reply (mkNodeResult NodeError "failed execution: expected mock error") None.
Proof.
  split; [reflexivity|].
  destruct (build_reply_outcomes (exec_error_response "failed execution: expected mock error" 2)
              eq_refl) as (_ & H & _).
  rewrite (H eq_refl). reflexivity.
Defined.

(** ** C7: a failed start records nothing *)

(** C7 (corrected).  For a validated, non-mock [execute] request whose
    workflow id is not tracked: for SageMaker, Glue and Step Functions a
    record (holding the returned id) is stored only when the start call
    succeeds with a non-empty id, and the response is then Running (3);
    on every failure the tracker is unchanged and the response carries the
    failure - status 2 when the call fails, its output cannot be packed or
    has no id.  For Lambda the start stores a fresh RUNNING record (with no
    external id) and reports Running. *)
Theorem execute_untracked_start (C : Collaborators) (wfs : Tracker) (uid : string)
    (input input' : PluginRequest) :
  Validate input = (input', None) -> Action input = "execute" -> Mock input = false ->
  wfs !! uid = None ->
  (ServiceName input = "aws_lambda" ->
   snd (template_execute C wfs (post uid input)) = <[uid := lambda_initial_record]> wfs
   /\ Status (fst (template_execute C wfs (post uid input))) = 3)
  /\ (ServiceName input <> "aws_lambda" ->
      match start_call C input' with
      | Some (CallOk id _) =>
          if is_empty id then
            snd (template_execute C wfs (post uid input)) = wfs
            /\ Status (fst (template_execute C wfs (post uid input))) = 2
          else
            snd (template_execute C wfs (post uid input)) = <[uid := mkPluginWorkflow id "" ""]> wfs
            /\ Status (fst (template_execute C wfs (post uid input))) = 3
      | Some (SessionError _) =>
          snd (template_execute C wfs (post uid input)) = wfs
          /\ ExecutionError (fst (template_execute C wfs (post uid input))) <> None
      | Some (CallError _) | Some (PackError _) =>
          snd (template_execute C wfs (post uid input)) = wfs
          /\ Status (fst (template_execute C wfs (post uid input))) = 2
      | None => False
      end).
Proof.
  intros HV HA HM HL.
  destruct (Validate_fields _ _ _ HV) as (ES & EA & EM & _).
  destruct (Validate_ok _ _ HV) as (HS & _).
  apply exists_key_allowedServiceNames in HS.
  unfold template_execute, post; simpl. rewrite HV.
  unfold dispatch, start_call. rewrite EA, HA, EM, HM, ES. simpl.
  destruct HS as [H|[H|[H|H]]]; rewrite H; simpl; rewrite HL;
    (split; intros Hn; [discriminate || (split; reflexivity)|]);
    try (exfalso; apply Hn; reflexivity);
    unfold StartSageMakerPipelineExecution, StartGlueJobExecution,
      StartStepFunctionExecution, start_execution;
    match goal with |- match ?r with _ => _ end => destruct r as [e|e|e|id b] end;
    simpl; try (split; [reflexivity | discriminate || reflexivity]);
    destruct (is_empty id); split; reflexivity.
Qed.

Lemma execute_untracked_start_witness :
  Validate (sample_request "aws_step_functions" "execute" false "")
  = (set_ResourceArn (sample_request "aws_step_functions" "execute" false "")
       "arn:aws:states:us-west-2:100000000002:stateMachine:MyStateMachine", None)
  /\ (∅ : Tracker) !! "u" = None
  /\ snd (template_execute (sample_collaborators "" "RUNNING") ∅
            (post "u" (sample_request "aws_step_functions" "execute" false ""))) = ∅.
Proof.
  split; [reflexivity|split; [reflexivity|]].
  destruct (execute_untracked_start (sample_collaborators "" "RUNNING") ∅ "u"
              (sample_request "aws_step_functions" "execute" false "")
              (set_ResourceArn (sample_request "aws_step_functions" "execute" false "")
                 "arn:aws:states:us-west-2:100000000002:stateMachine:MyStateMachine")
              eq_refl eq_refl eq_refl (lookup_empty "u")) as [_ H].
  exact (proj1 (H ltac:(discriminate))).
Defined.

(** C7, as stated, fails for Lambda: its start stores a record at once,
    although no external execution id was returned (the record's id is
    empty). *)
Lemma lambda_start_records_without_id :
  snd (template_execute (sample_collaborators "" "RUNNING") ∅
         (post "u" (sample_request "aws_lambda" "execute" false "")))
  = <["u" := lambda_initial_record]> ∅
  /\ ID lambda_initial_record = "".
Proof. split; reflexivity. Qed.

(** ** C8: the detached Lambda runner *)

(** Every exit of the runner other than a panic with a non-[error] value
    ends normally with one guarded write: FAILED with a description, or
    SUCCEEDED with the marshalled output. *)
Lemma invoke_lambda_guarded (run : lambda_run) (wf : PluginWorkflow) :
  (forall v, run <> RunPanic (PanicOther v)) ->
  exists s m,
    InvokeLambdaFunctionAsync run wf = (apply_events wf (guarded_write s m),
                                        guarded_write s m, Finished)
    /\ (s = "SUCCEEDED" <-> exists b, run = RunOk b /\ m = b)
    /\ (s = "FAILED" <-> forall b, run <> RunOk b).
Proof.
  intros Hrun.
  destruct run as [e|e|e|e|[m|v]|b];
    try (exfalso; exact (Hrun v eq_refl));
    [eexists "FAILED", _; split; [reflexivity|split;
       [split; [discriminate | intros (b' & Hb & _); discriminate]
       |split; [intros _ b' Hb; discriminate | reflexivity]]]..|].
  exists "SUCCEEDED", b. split; [reflexivity|split].
  - split; [intros _; eauto | reflexivity].
  - split; [discriminate | intros Hb; exfalso; exact (Hb b eq_refl)].
Qed.

(** C8 (code_bug).  A panic whose value is not an [error] (here a
    string, as [panic("...")] raises) is recovered, but the unchecked
    assertion [r.(error)] in the deferred handler panics again: nothing
    is written, the goroutine ends with an unrecovered panic (which
    terminates the process), and the record stays RUNNING, so every later
    poll answers Running. *)
Theorem invoke_lambda_string_panic_crashes :
  InvokeLambdaFunctionAsync (RunPanic (PanicOther "boom")) lambda_initial_record
  = (lambda_initial_record, [],
     ProcessCrash "interface conversion: interface {} is string, not error")
  /\ Status (CheckLambdaFunctionExecution (sample_request "aws_lambda" "execute" false "")
               lambda_initial_record) = 3.
Proof. split; reflexivity. Qed.

(** ** C9: when validation fails *)

Ltac refute_conditions :=
  intros HP; unfold required_name_empty in HP; intuition congruence.

Lemma validate_fails_iff_conditions (req : PluginRequest) :
  snd (Validate req) <> None <->
  (AccountID req = "" \/ ServiceName req = "" \/ Action req = "" \/ RegionName req = ""
   \/ ~ (ServiceName req = "amazon_sagemaker_pipelines" \/ ServiceName req = "aws_glue"
         \/ ServiceName req = "aws_step_functions" \/ ServiceName req = "aws_lambda")
   \/ ~ (Action req = "validate" \/ Action req = "execute")
   \/ required_name_empty req
   \/ (Mock req = true
       /\ (MockState req = "" \/ exists_key allowedMockStates (MockState req) = false))).
Proof.
  unfold Validate, is_empty.
  destruct (String.eqb_spec (AccountID req) "") as [E1|E1]; simpl.
  { split; [intros _; left; exact E1 | discriminate]. }
  destruct (String.eqb_spec (ServiceName req) "") as [E2|E2]; simpl.
  { split; [intros _; right; left; exact E2 | discriminate]. }
  destruct (String.eqb_spec (Action req) "") as [E3|E3]; simpl.
  { split; [intros _; do 2 right; left; exact E3 | discriminate]. }
  destruct (String.eqb_spec (RegionName req) "") as [E4|E4]; simpl.
  { split; [intros _; do 3 right; left; exact E4 | discriminate]. }
  destruct (exists_key allowedServiceNames (ServiceName req)) eqn:ES; simpl.
  2: { split; [intros _; do 4 right; left; intros Hin;
               apply exists_key_allowedServiceNames in Hin; congruence | discriminate]. }
  destruct (exists_key allowedActions (Action req)) eqn:EA; simpl.
  2: { split; [intros _; do 5 right; left; intros Hin;
               apply exists_key_allowedActions in Hin; congruence | discriminate]. }
  apply exists_key_allowedServiceNames in ES.
  apply exists_key_allowedActions in EA.
  unfold service_arn, is_empty.
  destruct ES as [H|[H|[H|H]]]; rewrite H; simpl;
    match goal with
    | |- context [String.eqb ?n ""] => destruct (String.eqb_spec n "") as [EN|EN]; simpl
    end.
  all: try (split; [intros _; do 6 right; left; unfold required_name_empty; tauto | discriminate]).
  all: destruct (Mock req) eqn:EM; simpl.
  all: try (split; [intros Hc; exfalso; apply Hc; reflexivity | refute_conditions]).
  all: destruct (String.eqb_spec (MockState req) "") as [E5|E5]; simpl.
  all: try (split; [intros _; do 7 right; split; [reflexivity | left; exact E5] | discriminate]).
  all: destruct (exists_key allowedMockStates (MockState req)) eqn:E6; simpl.
  all: try (split; [intros _; do 7 right; split; [reflexivity | right; reflexivity] | discriminate]).
  all: split; [intros Hc; exfalso; apply Hc; reflexivity | refute_conditions].
Qed.

(** C9 (corrected).  [Validate] fails exactly when account id, service,
    action or region is empty, the service is not one of the four, the
    action is not [validate]/[execute], the chosen service's name field is
    empty, or - the case the claim leaves out - [mock] is set and
    [mock_state] is empty or not in [allowedMockStates].  When the name
    field is what fails, the error names that field. *)
Theorem validate_fails_exactly (req : PluginRequest) :
  (snd (Validate req) <> None <->
   (AccountID req = "" \/ ServiceName req = "" \/ Action req = "" \/ RegionName req = ""
    \/ ~ (ServiceName req = "amazon_sagemaker_pipelines" \/ ServiceName req = "aws_glue"
          \/ ServiceName req = "aws_step_functions" \/ ServiceName req = "aws_lambda")
    \/ ~ (Action req = "validate" \/ Action req = "execute")
    \/ required_name_empty req
    \/ (Mock req = true
        /\ (MockState req = "" \/ exists_key allowedMockStates (MockState req) = false))))
  /\ (AccountID req <> "" -> RegionName req <> "" ->
      (Action req = "validate" \/ Action req = "execute") ->
      (ServiceName req = "amazon_sagemaker_pipelines" -> PipelineName req = "" ->
       snd (Validate req) = Some "pipeline_name is empty")
      /\ (ServiceName req = "aws_glue" -> JobName req = "" ->
          snd (Validate req) = Some "job_name is empty")
      /\ (ServiceName req = "aws_step_functions" -> StepFunctionName req = "" ->
          snd (Validate req) = Some "step_function_name is empty")
      /\ (ServiceName req = "aws_lambda" -> LambdaFunctionName req = "" ->
          snd (Validate req) = Some "lambda_function_name is empty")).
Proof.
  split; [apply validate_fails_iff_conditions|].
  intros HA HR HAct.
  unfold Validate, is_empty.
  destruct (String.eqb_spec (AccountID req) "") as [E|_]; [contradiction|].
  destruct (String.eqb_spec (RegionName req) "") as [E|_]; [contradiction|].
  assert (HAct' : exists_key allowedActions (Action req) = true)
    by (apply exists_key_allowedActions; exact HAct).
  assert (HAe : String.eqb (Action req) "" = false)
    by (destruct HAct as [-> | ->]; reflexivity).
  rewrite HAct', HAe.
  repeat split; intros HS HN; rewrite HS; unfold service_arn, is_empty; rewrite HS, HN;
    reflexivity.
Qed.

Lemma validate_fails_exactly_witness :
  AccountID (mkPluginRequest "" "100000000002" "aws_glue" "execute" "" "" "" ""
               None "" "us-west-2" false "") <> ""
  /\ snd (Validate (mkPluginRequest "" "100000000002" "aws_glue" "execute" "" "" "" ""
                      None "" "us-west-2" false "")) = Some "job_name is empty".
Proof.
  split; [discriminate|].
  destruct (validate_fails_exactly (mkPluginRequest "" "100000000002" "aws_glue" "execute"
                                      "" "" "" "" None "" "us-west-2" false "")) as [_ H].
  destruct (H ltac:(discriminate) ltac:(discriminate) ltac:(right; reflexivity))
    as (_ & Hg & _).
  exact (Hg eq_refl eq_refl).
Defined.

(** C9, as stated, fails: a request with every listed field present and
    supported, but [mock] set with an empty [mock_state], fails
    validation. *)
Lemma validate_mock_only_failure_counterexample :
  let req := sample_request "aws_glue" "execute" true "" in
  snd (Validate req) = Some "mock state is empty"
  /\ ~ (AccountID req = "" \/ ServiceName req = "" \/ Action req = "" \/ RegionName req = ""
        \/ ~ (ServiceName req = "amazon_sagemaker_pipelines" \/ ServiceName req = "aws_glue"
              \/ ServiceName req = "aws_step_functions" \/ ServiceName req = "aws_lambda")
        \/ ~ (Action req = "validate" \/ Action req = "execute")
        \/ required_name_empty req).
Proof.
  simpl. split; [reflexivity|].
  unfold required_name_empty; simpl.
  intros [H|[H|[H|[H|[H|[H|H]]]]]]; try discriminate.
  - apply H. right; left; reflexivity.
  - apply H. right; reflexivity.
  - destruct H as [[_ H]|[[_ H]|[[_ H]|[_ H]]]]; discriminate.
Qed.

(** ** C10: what [Validate] writes *)

Ltac not_mock HV He :=
  injection HV as _ <-; destruct He as [He|He]; simpl in He; discriminate He.

(** C10 (corrected).  [Validate] changes no field but [ResourceArn]; when
    it fails on the mock checks (empty or unsupported [mock_state]) the
    service switch has already run, so [ResourceArn] holds the derived
    identifier, and the request is left changed unless the caller had
    already supplied exactly that identifier. *)
Theorem validate_mock_failure_keeps_arn (req : PluginRequest) :
  (forall req' e, Validate req = (req', e) -> req' = set_ResourceArn req (ResourceArn req'))
  /\ (forall req' e, Validate req = (req', Some e) ->
      (e = "mock state is empty" \/ e = "mock state '" ++ MockState req ++ "' is not supported") ->
      service_arn req = Some (None, ResourceArn req')
      /\ (ResourceArn req <> ResourceArn req' -> req' <> req)).
Proof.
  split; [apply Validate_frame|].
  intros req' e HV He.
  assert (Hc : ResourceArn req <> ResourceArn req' -> req' <> req) by congruence.
  split; [|exact Hc]. clear Hc.
  unfold Validate in HV.
  destruct (is_empty (AccountID req)); [not_mock HV He|].
  destruct (is_empty (ServiceName req)); [not_mock HV He|].
  destruct (is_empty (Action req)); [not_mock HV He|].
  destruct (is_empty (RegionName req)); [not_mock HV He|].
  destruct (exists_key allowedServiceNames (ServiceName req)) eqn:ES; simpl in HV;
    [|not_mock HV He].
  destruct (exists_key allowedActions (Action req)) eqn:EA; simpl in HV; [|not_mock HV He].
  destruct (service_arn req) as [[[e0|] arn]|] eqn:ESA; simpl in HV.
  - injection HV as _ <-.
    unfold service_arn in ESA.
    repeat match type of ESA with context [if ?c then _ else _] => destruct c; simpl in ESA end;
      try discriminate ESA; injection ESA as <- _;
      destruct He as [He|He]; simpl in He; discriminate He.
  - repeat match type of HV with context [if ?c then _ else _] => destruct c; simpl in HV end;
      injection HV as <- _; reflexivity.
  - apply exists_key_allowedServiceNames in ES. unfold service_arn in ESA.
    destruct ES as [H|[H|[H|H]]]; rewrite H in ESA; simpl in ESA; discriminate ESA.
Qed.

Lemma validate_mock_failure_keeps_arn_witness :
  Validate (sample_request "aws_glue" "execute" true "")
  = (set_ResourceArn (sample_request "aws_glue" "execute" true "")
       "arn:aws:glue:us-west-2:100000000002:job/MyGlueJob", Some "mock state is empty")
  /\ service_arn (sample_request "aws_glue" "execute" true "")
     = Some (None, "arn:aws:glue:us-west-2:100000000002:job/MyGlueJob").
Proof.
  split; [reflexivity|].
  destruct (validate_mock_failure_keeps_arn (sample_request "aws_glue" "execute" true ""))
    as [_ H].
  exact (proj1 (H _ _ eq_refl (or_introl eq_refl))).
Defined.

(** C10, as stated, fails when the caller already supplied the derived
    identifier in [resource_arn]: the mock-state failure then leaves the
    request exactly as it was. *)
Lemma validate_mock_failure_unchanged_counterexample :
  let req := set_ResourceArn (sample_request "aws_glue" "execute" true "")
               "arn:aws:glue:us-west-2:100000000002:job/MyGlueJob" in
  Validate req = (req, Some "mock state is empty").
Proof. reflexivity. Qed.

(* ================================================================== *)
(** * Further properties of the code *)

(** ** error.go *)

Lemma with_args_fold (vs : list go_value) (h n : bool) :
  fold_left with_args_step vs (h, n)
  = (h || existsb (fun x => match x with GoError _ _ => true | _ => false end) vs,
     n || existsb (fun x => match x with GoNil => true | _ => false end) vs).
Proof.
  revert h n. induction vs as [|x vs IH]; intros h n; simpl.
  - rewrite !orb_false_r. reflexivity.
  - destruct x; simpl; rewrite IH; f_equal; destruct h, n; reflexivity.
Qed.

(** [WithArgs] returns [nil] exactly when some operand is the nil
    interface (such as a [nil] [error] variable) and no operand is an
    [error]; with no operands at all, or only strings, it returns an
    error. *)
Theorem with_args_nil_iff (e : string) (vs : list go_value) :
  WithArgs e vs = None <-> In GoNil vs /\ (forall t m, ~ In (GoError t m) vs).
Proof.
  unfold WithArgs. rewrite with_args_fold. simpl.
  set (isE := fun x : go_value => match x with GoError _ _ => true | _ => false end).
  set (isN := fun x : go_value => match x with GoNil => true | _ => false end).
  assert (HE : existsb isE vs = true <-> exists t m, In (GoError t m) vs).
  { rewrite existsb_exists. split.
    - intros [x [Hx Hex]]. destruct x; try discriminate. eauto.
    - intros (t & m & H). exists (GoError t m). split; [exact H | reflexivity]. }
  assert (HN : existsb isN vs = true <-> In GoNil vs).
  { rewrite existsb_exists. split.
    - intros [x [Hx Hex]]. destruct x; try discriminate. exact Hx.
    - intros H. exists GoNil. split; [exact H | reflexivity]. }
  destruct (existsb isN vs) eqn:EN, (existsb isE vs) eqn:EE; simpl.
  - split; [discriminate|]. intros [_ Hno].
    destruct (proj1 HE eq_refl) as (t & m & H). exfalso; exact (Hno t m H).
  - split; [intros _|reflexivity]. split; [apply HN; reflexivity|].
    intros t m H. assert (false = true) by (apply HE; eauto). discriminate.
  - split; [discriminate|]. intros [H _]. apply HN in H. discriminate.
  - split; [discriminate|]. intros [H _]. apply HN in H. discriminate.
Qed.

Lemma string_append_empty_r (s : string) : s ++ "" = s.
Proof. induction s as [|c s IH]; [reflexivity|]. exact (f_equal (String c) IH). Qed.

Lemma doPrintf_plain (prefix rest : string) (a : list go_value) :
  has_char "%"%char prefix = false ->
  doPrintf (prefix ++ rest) a = option_map (fun r => (prefix ++ fst r, snd r)) (doPrintf rest a).
Proof.
  induction prefix as [|c p IH]; intros H.
  - change ("" ++ rest) with rest. destruct (doPrintf rest a) as [[s a']|]; reflexivity.
  - cbn [has_char] in H. apply orb_false_iff in H as [Hc Hp].
    change (String c p ++ rest) with (String c (p ++ rest)). cbn [doPrintf].
    rewrite Ascii.eqb_sym, Hc. cbn [negb]. rewrite (IH Hp).
    destruct (doPrintf rest a) as [[s a']|]; reflexivity.
Qed.

(** The [GenericError]s of the handler end in one verb ([%v] or [%s])
    after text with no [%]: with a single operand, [WithArgs] followed by
    [Error()] yields that text followed by the operand (the [Error()] of
    an [error], a string as it is), and a nil operand yields no error at
    all.  So an [error] variable [e] passed to [WithArgs] gives
    [prefix ++ e.Error()] when it is set and [nil] when it is not. *)
Theorem with_args_single_verb (prefix : string) (verb : ascii) (x : go_value) :
  has_char "%"%char prefix = false -> (verb = "v"%char \/ verb = "s"%char) ->
  option_map DetailedError_Error (WithArgs (prefix ++ String "%"%char (String verb "")) [x])
  = match x with
    | GoNil => None
    | GoError _ m => Some (Some (prefix ++ m))
    | GoString s => Some (Some (prefix ++ s))
    end
  /\ (forall t e, option_map DetailedError_Error
                    (WithArgs (prefix ++ String "%"%char (String verb "")) [error_operand t e])
                  = option_map Some (with_error_arg prefix e)).
Proof.
  intros Hp Hv.
  assert (Hx : forall y, y <> GoNil ->
            option_map DetailedError_Error (WithArgs (prefix ++ String "%"%char (String verb "")) [y])
            = Some (Some (prefix ++ print_arg verb y))).
  { intros y Hy. unfold WithArgs. simpl.
    destruct y; [exfalso; apply Hy; reflexivity| |]; simpl;
      unfold DetailedError_Error, Sprintf; simpl; rewrite (doPrintf_plain _ _ _ Hp);
      destruct Hv as [-> | ->]; simpl; rewrite string_append_empty_r; reflexivity. }
  split.
  - destruct x as [|t m|s].
    + reflexivity.
    + rewrite Hx by discriminate. reflexivity.
    + rewrite Hx by discriminate. reflexivity.
  - intros t [m|]; unfold error_operand, with_error_arg.
    + rewrite Hx by discriminate. reflexivity.
    + reflexivity.
Qed.

Lemma with_args_single_verb_witness :
  has_char "%"%char "failed to parse request body: " = false
  /\ option_map DetailedError_Error
       (WithArgs ("failed to parse request body: " ++ String "%"%char (String "v"%char ""))
          [GoError "*errors.errorString" "unexpected EOF"])
     = Some (Some ("failed to parse request body: " ++ "unexpected EOF")).
Proof.
  split; [reflexivity|].
  exact (proj1 (with_args_single_verb "failed to parse request body: " "v"%char
                  (GoError "*errors.errorString" "unexpected EOF") eq_refl (or_introl eq_refl))).
Defined.

Lemma doPrintf_no_verb (f : string) (a : list go_value) :
  has_char "%"%char f = false -> doPrintf f a = Some (f, a).
Proof.
  intros H. rewrite <- (string_append_empty_r f) at 1.
  rewrite (doPrintf_plain _ _ _ H). simpl. rewrite string_append_empty_r. reflexivity.
Qed.

(** [Error()] of a [WithArgs] result whose operands do not match the
    format's verbs: a format with no verb given a string operand prints
    it in an [%!(EXTRA string=...)] suffix; with no operand it prints the
    format as it is; and a format ending in [%v] given no operand prints
    [%!v(MISSING)] in place of the verb. *)
Theorem with_args_operand_mismatch (f s : string) :
  has_char "%"%char f = false ->
  option_map DetailedError_Error (WithArgs f [GoString s])
  = Some (Some (f ++ "%!(EXTRA string=" ++ s ++ ")"))
  /\ option_map DetailedError_Error (WithArgs f []) = Some (Some f)
  /\ option_map DetailedError_Error (WithArgs (f ++ "%v") [])
     = Some (Some (f ++ "%!v(MISSING)")).
Proof.
  intros H. unfold WithArgs, DetailedError_Error, Sprintf. simpl.
  split; [|split].
  - rewrite (doPrintf_no_verb _ _ H). reflexivity.
  - rewrite (doPrintf_no_verb _ _ H). reflexivity.
  - rewrite (doPrintf_plain _ _ _ H). reflexivity.
Qed.

Lemma with_args_operand_mismatch_witness :
  has_char "%"%char "content type header value is unsupported" = false
  /\ option_map DetailedError_Error (WithArgs "content type header value is unsupported" [])
     = Some (Some "content type header value is unsupported").
Proof.
  split; [reflexivity|].
  exact (proj1 (proj2 (with_args_operand_mismatch "content type header value is unsupported" ""
                         eq_refl))).
Defined.

(** ** status.go *)

Lemma string_length_append (a b : string) :
  String.length (a ++ b) = (String.length a + String.length b)%nat.
Proof.
  induction a as [|c a IH]; [reflexivity|].
  change (String.length (String c (a ++ b)) = S (String.length a + String.length b))%nat.
  simpl. rewrite IH. reflexivity.
Qed.

Lemma string_app_inj_r (a b c : string) : a ++ c = b ++ c -> a = b.
Proof.
  revert b. induction a as [|x a IH]; intros [|y b] H.
  - reflexivity.
  - exfalso. apply (f_equal String.length) in H.
    change (String.length c = String.length (String y (b ++ c))) in H.
    simpl in H. rewrite string_length_append in H. lia.
  - exfalso. apply (f_equal String.length) in H.
    change (String.length (String x (a ++ c)) = String.length c) in H.
    simpl in H. rewrite string_length_append in H. lia.
  - change (String x (a ++ c) = String y (b ++ c)) in H.
    injection H as -> H. f_equal. exact (IH b H).
Qed.

Lemma go_itoa_inj (a b : Z) : go_itoa a = go_itoa b -> a = b.
Proof.
  unfold go_itoa. intros H.
  apply (f_equal NilEmpty.int_of_string) in H. rewrite !NilEmpty.isi in H.
  injection H as H.
  rewrite <- (DecimalZ.of_to a), <- (DecimalZ.of_to b), H. reflexivity.
Qed.

(** [PluginWorkflowStatus.String] is injective: distinct statuses get
    distinct names, the three named ones and every other value (printed
    as [PluginWorkflowStatus(<decimal>)]) alike. *)
Theorem PluginWorkflowStatus_String_inj (m1 m2 : Z) :
  PluginWorkflowStatus_String m1 = PluginWorkflowStatus_String m2 -> m1 = m2.
Proof.
  unfold PluginWorkflowStatus_String, SUCCESS, RUNNING, ERROR.
  destruct (Z.eqb_spec m1 1), (Z.eqb_spec m2 1); try congruence;
    destruct (Z.eqb_spec m1 2), (Z.eqb_spec m2 2); try congruence;
    destruct (Z.eqb_spec m1 3), (Z.eqb_spec m2 3); try congruence;
    try discriminate.
  intros H. apply go_itoa_inj.
  apply (string_app_inj_r _ _ ")") .
  exact (inj (String.app "PluginWorkflowStatus(") _ _ H).
Qed.

Lemma PluginWorkflowStatus_String_inj_witness :
  PluginWorkflowStatus_String 0 = PluginWorkflowStatus_String 0 /\ (0 = 0)%Z.
Proof. split; [reflexivity|]. exact (PluginWorkflowStatus_String_inj 0 0 eq_refl). Defined.

(** The names of [status.go] disagree with the handler on 2 and 3: a
    response with [Status: 2], the constant [RUNNING] whose [String()] is
    [running], is answered with phase Error, and one with [Status: 3], the
    constant [ERROR] whose [String()] is [error], with phase Running. *)
Theorem status_names_disagree_with_phases (resp : PluginResponse) :
  RequestError resp = None ->
  (Status resp = RUNNING ->
   PluginWorkflowStatus_String (Status resp) = "running"
   /\ exists m r, build_reply resp = Reply (mkNodeResult NodeError m) r)
  /\ (Status resp = ERROR ->
      PluginWorkflowStatus_String (Status resp) = "error"
      /\ exists m r, build_reply resp = Reply (mkNodeResult NodeRunning m) r).
Proof.
  intros HR. unfold build_reply. rewrite HR.
  split; intros HS; rewrite HS; split; try reflexivity; simpl; eauto.
Qed.

Lemma status_names_disagree_with_phases_witness :
  RequestError (mkPluginResponse "" 2 false None None None) = None
  /\ Status (mkPluginResponse "" 2 false None None None) = RUNNING
  /\ PluginWorkflowStatus_String (Status (mkPluginResponse "" 2 false None None None)) = "running".
Proof.
  split; [reflexivity|split; [reflexivity|]].
  exact (proj1 (proj1 (status_names_disagree_with_phases
                         (mkPluginResponse "" 2 false None None None) eq_refl) eq_refl)).
Defined.

(** ** handleTemplateExecute: request errors and the tracker *)


Lemma start_execution_effect (s p n : string) (r : aws_result string) (w : string) (wfs : Tracker) :
  RequestError (fst (start_execution s p n r w wfs)) = None
  /\ (snd (start_execution s p n r w wfs) = wfs
      \/ (Status (fst (start_execution s p n r w wfs)) = 3
          /\ exists id, id <> "" /\ snd (start_execution s p n r w wfs)
                                   = <[w := mkPluginWorkflow id "" ""]> wfs)).
Proof.
  destruct r as [e|e|e|id b]; simpl; try (split; [reflexivity | left; reflexivity]).
  destruct (is_empty id) eqn:E; simpl; [split; [reflexivity | left; reflexivity]|].
  split; [reflexivity|]. right. split; [reflexivity|]. exists id. split; [|reflexivity].
  intros ->. discriminate.
Qed.

Lemma check_exists_no_request_error (d p : string) (r : aws_result unit) :
  RequestError (check_exists d p r) = None.
Proof. destruct r; reflexivity. Qed.

Lemma poll_execution_no_request_error (c p : string) (n : string -> string -> PluginResponse)
    (r : aws_result string) :
  (forall b t, RequestError (n b t) = None) -> RequestError (poll_execution c p n r) = None.
Proof. intros Hn. destruct r; simpl; [reflexivity..|apply Hn]. Qed.

Lemma normalizers_no_request_error (b t : string) :
  RequestError (sagemaker_status b t) = None /\ RequestError (glue_status b t) = None
  /\ RequestError (step_function_status b t) = None.
Proof.
  unfold sagemaker_status, glue_status, step_function_status, running_response.
  repeat split; repeat match goal with |- context [if ?c then _ else _] => destruct c end;
    reflexivity.
Qed.

Lemma lambda_status_no_request_error (wf : PluginWorkflow) :
  RequestError (lambda_status wf) = None.
Proof.
  unfold lambda_status, running_response.
  repeat match goal with |- context [if ?c then _ else _] => destruct c end; reflexivity.
Qed.

(** On a supported service, the dispatcher never sets a request error,
    and it either leaves the tracker as it is or adds one record at the
    workflow id, untracked until then, together with a Running response. *)
Lemma dispatch_effect (C : Collaborators) (wfs : Tracker) (uid : string) (input : PluginRequest) :
  exists_key allowedServiceNames (ServiceName input) = true ->
  RequestError (fst (dispatch C wfs uid input)) = None
  /\ (snd (dispatch C wfs uid input) = wfs
      \/ (wfs !! uid = None /\ Status (fst (dispatch C wfs uid input)) = 3
          /\ exists pw, added_record pw /\ snd (dispatch C wfs uid input) = <[uid := pw]> wfs)).
Proof.
  intros HS. apply exists_key_allowedServiceNames in HS.
  unfold dispatch.
  destruct (Mock input);
    [repeat match goal with |- context [if String.eqb (MockState input) ?x then _ else _] =>
       destruct (String.eqb (MockState input) x) end;
     try (split; [reflexivity | left; reflexivity]) |].
  all: cbv zeta.
  all: destruct HS as [H|[H|[H|H]]]; rewrite H; simpl.
  all: destruct (String.eqb (Action input) "validate");
    [split; [simpl fst; unfold CheckIfSageMakerPipelineExists, CheckIfGlueJobExists,
               CheckIfStepFunctionExists, CheckIfLambdaFunctionExists;
             apply check_exists_no_request_error | left; reflexivity] |].
  all: destruct (String.eqb (Action input) "execute");
    [| split; [reflexivity | left; reflexivity]].
  all: destruct (wfs !! uid) as [pw|] eqn:HL.
  all: try (split; [| left; reflexivity]).
  all: try (apply poll_execution_no_request_error; intros; apply normalizers_no_request_error).
  all: try apply lambda_status_no_request_error.
  all: first
    [ unfold StartSageMakerPipelineExecution, StartGlueJobExecution, StartStepFunctionExecution;
      match goal with |- context [start_execution ?s ?p ?n ?r ?u ?w] =>
        destruct (start_execution_effect s p n r u w) as [He [Hw | (H3 & id & Hid & Hw)]] end;
      (split; [exact He|]); [left; exact Hw|];
      right; split; [reflexivity|]; split; [exact H3|];
      exists (mkPluginWorkflow id "" ""); split; [right; simpl; tauto | exact Hw]
    | split; [reflexivity|]; right; split; [reflexivity|]; split; [reflexivity|];
      exists lambda_initial_record; split; [left; reflexivity | reflexivity] ].
Qed.

Lemma template_execute_effect (C : Collaborators) (wfs : Tracker) (req : HTTPRequest) :
  (RequestError (fst (template_execute C wfs req)) <> None <->
   Method req <> "POST" \/ ContentType req <> "application/json"
   \/ match Body req with
      | BodyParseError e => e <> None
      | PluginInputFound _ input => snd (Validate input) <> None
      | _ => True
      end)
  /\ (snd (template_execute C wfs req) = wfs
      \/ exists uid input, Body req = PluginInputFound uid input
         /\ RequestError (fst (template_execute C wfs req)) = None
         /\ wfs !! uid = None /\ Status (fst (template_execute C wfs req)) = 3
         /\ exists pw, added_record pw /\ snd (template_execute C wfs req) = <[uid := pw]> wfs).
Proof.
  unfold template_execute.
  destruct (String.eqb_spec (Method req) "POST") as [HM|HM]; simpl.
  2: { split; [split; [intros _; left; exact HM | discriminate] | left; reflexivity]. }
  destruct (String.eqb_spec (ContentType req) "application/json") as [HC|HC]; simpl.
  2: { split; [split; [intros _; right; left; exact HC | discriminate] | left; reflexivity]. }
  assert (Hno : forall P : Prop, (P <-> Method req <> "POST" \/ ContentType req <> "application/json" \/ P)).
  { intros P. split; [tauto|]. intros [H|[H|H]]; [contradiction..|exact H]. }
  destruct (Body req) as [e|e|e|e| |uid input]; simpl.
  all: try (split; [split; [intros _; right; right; exact I | discriminate] | left; reflexivity]).
  - split; [|left; reflexivity]. rewrite <- Hno. destruct e; simpl; split; congruence.
  - destruct (Validate input) as [input' [e|]] eqn:HV; simpl.
    + split; [|left; reflexivity]. rewrite <- Hno. split; congruence.
    + destruct (Validate_ok _ _ HV) as (HS & _).
      destruct (Validate_fields _ _ _ HV) as (ES & _).
      rewrite <- ES in HS.
      destruct (dispatch_effect C wfs uid input' HS) as [HR [Hw | (HL & H3 & Hpw)]].
      * split; [|left; exact Hw]. rewrite <- Hno. split; congruence.
      * split; [rewrite <- Hno; split; congruence|].
        right. exists uid, input. split; [reflexivity|]. split; [exact HR|].
        split; [exact HL|]. split; [exact H3|exact Hpw].
Qed.


(** A parsed body without workflow or template sets the request error to
    [ErrRequestParserError.WithArgs(err)] with [err] nil, which is [nil]:
    the handler then answers 200 with phase Error and message [error],
    not a 400. *)
Theorem parsed_body_without_workflow (C : Collaborators) (wfs : Tracker) :
  WithArgs "failed to parse request body: %v" [error_operand "*json.SyntaxError" None] = None
  /\ handleTemplateExecute C wfs (mkHTTPRequest "POST" "application/json" (BodyParseError None))
     = (Reply (mkNodeResult NodeError "error") None, wfs).
Proof. split; reflexivity. Qed.

(** The handler never changes or removes a record already in the
    tracker; the only key whose entry can change is the workflow id of
    the request, and only when it was not tracked. *)
Theorem handler_keeps_tracked_records (C : Collaborators) (wfs : Tracker) (req : HTTPRequest) :
  (forall k pw, wfs !! k = Some pw -> snd (handleTemplateExecute C wfs req) !! k = Some pw)
  /\ (forall k, snd (handleTemplateExecute C wfs req) !! k <> wfs !! k ->
      wfs !! k = None /\ exists input, Body req = PluginInputFound k input).
Proof.
  unfold handleTemplateExecute.
  destruct (template_execute_effect C wfs req) as [_ Hw].
  destruct (template_execute C wfs req) as [resp wfs'] eqn:E. simpl in *.
  destruct Hw as [-> | (uid & input & HB & _ & HL & _ & pw & _ & ->)].
  - split; [tauto|]. intros k Hk. contradiction.
  - split.
    + intros k pw' Hk. rewrite lookup_insert_ne; [exact Hk|]. congruence.
    + intros k Hk. destruct (decide (uid = k)) as [<-|Hne].
      * split; [exact HL|]. exists input. exact HB.
      * rewrite lookup_insert_ne in Hk by exact Hne. contradiction.
Qed.

(** A record appears in the tracker only together with a Running reply,
    and it is either the Lambda placeholder or a record holding a
    non-empty external id. *)
Theorem handler_new_record_shape (C : Collaborators) (wfs : Tracker) (req : HTTPRequest)
    (k : string) (pw : PluginWorkflow) :
  wfs !! k = None -> snd (handleTemplateExecute C wfs req) !! k = Some pw ->
  (exists m d, fst (handleTemplateExecute C wfs req) = Reply (mkNodeResult NodeRunning m) (Some d))
  /\ added_record pw.
Proof.
  intros HL0 Hk.
  unfold handleTemplateExecute in *.
  destruct (template_execute_effect C wfs req) as [_ Hw].
  destruct (template_execute C wfs req) as [resp wfs'] eqn:E. simpl in *.
  destruct Hw as [-> | (uid & input & HB & HR & HL & H3 & pw' & Hpw & ->)]; [congruence|].
  destruct (decide (uid = k)) as [<-|Hne].
  - rewrite lookup_insert_eq in Hk. injection Hk as <-. split; [|exact Hpw].
    unfold build_reply. rewrite HR, H3. simpl.
    destruct (RequeueDuration resp); eauto.
  - rewrite lookup_insert_ne in Hk by exact Hne. congruence.
Qed.

Lemma handler_new_record_shape_witness :
  (∅ : Tracker) !! "u" = None
  /\ snd (handleTemplateExecute (sample_collaborators "" "") ∅
            (post "u" (sample_request "aws_lambda" "execute" false ""))) !! "u"
     = Some lambda_initial_record
  /\ added_record lambda_initial_record.
Proof.
  split; [reflexivity|split; [reflexivity|]].
  exact (proj2 (handler_new_record_shape (sample_collaborators "" "") ∅
                  (post "u" (sample_request "aws_lambda" "execute" false ""))
                  "u" lambda_initial_record eq_refl eq_refl)).
Defined.

(** ** Validate is idempotent *)

Lemma service_arn_set_ResourceArn (r : PluginRequest) (a : string) :
  service_arn (set_ResourceArn r a) = service_arn r.
Proof. destruct r; reflexivity. Qed.

Lemma set_ResourceArn_twice (r : PluginRequest) (a b : string) :
  set_ResourceArn (set_ResourceArn r a) b = set_ResourceArn r b.
Proof. destruct r; reflexivity. Qed.

(** [Validate] returns the request unchanged, or with the [ResourceArn]
    the service switch computed. *)
Lemma Validate_shape (r r' : PluginRequest) (e : option string) :
  Validate r = (r', e) ->
  r' = r
  \/ ((is_empty (AccountID r) || is_empty (ServiceName r) || is_empty (Action r)
       || is_empty (RegionName r) || negb (exists_key allowedServiceNames (ServiceName r))
       || negb (exists_key allowedActions (Action r))) = false
      /\ exists arn, service_arn r = Some (None, arn) /\ r' = set_ResourceArn r arn).
Proof.
  unfold Validate. intros H.
  repeat match type of H with context [if ?c then _ else _] => destruct c end;
    try (injection H as <- _; left; reflexivity).
  destruct (service_arn r) as [[[e0|] arn]|] eqn:E; simpl in H;
    repeat match type of H with context [if ?c then _ else _] => destruct c end;
    injection H as <- _.
  all: first [ left; reflexivity
             | right; split; [reflexivity | exists arn; split; reflexivity] ].
Qed.

Lemma Validate_set_derived_arn (r : PluginRequest) (arn : string) :
  (is_empty (AccountID r) || is_empty (ServiceName r) || is_empty (Action r)
   || is_empty (RegionName r) || negb (exists_key allowedServiceNames (ServiceName r))
   || negb (exists_key allowedActions (Action r))) = false ->
  service_arn r = Some (None, arn) -> Validate (set_ResourceArn r arn) = Validate r.
Proof.
  intros Hc H. unfold Validate. rewrite service_arn_set_ResourceArn, H.
  rewrite set_ResourceArn_twice.
  repeat rewrite orb_false_iff in Hc.
  destruct Hc as [[[[[H1 H2] H3] H4] H5] H6].
  cbn [set_ResourceArn AccountID ServiceName Action RegionName Mock MockState].
  rewrite H1, H2, H3, H4, H5, H6. reflexivity.
Qed.

(** Validating a request a second time changes nothing: the request
    [Validate] leaves behind validates to the same request and the same
    error (the derived [ResourceArn] is recomputed to the same value and
    no check reads it). *)
Theorem Validate_idempotent (r : PluginRequest) :
  Validate (fst (Validate r)) = Validate r.
Proof.
  destruct (Validate r) as [r' e] eqn:HV. simpl.
  destruct (Validate_shape _ _ _ HV) as [-> | (Hc & arn & Ha & ->)]; [exact HV|].
  rewrite (Validate_set_derived_arn _ _ Hc Ha). exact HV.
Qed.

(** ** The Lambda path: start, detached runner, poll *)

(** For a validated, non-mock Lambda [execute] whose workflow id is not
    tracked: the first request stores the placeholder record and answers
    Running with a 5 s requeue.  Once the detached runner has ended by
    any exit but a panic with a non-[error] value (its writes go to the
    same record the tracker points to), the next identical request leaves
    the tracker as it is and answers without requeue: phase Succeeded
    when the invocation returned, Error otherwise. *)
Theorem lambda_start_run_poll (C : Collaborators) (wfs : Tracker) (uid : string)
    (input input' : PluginRequest) (run : lambda_run) :
  Validate input = (input', None) -> ServiceName input = "aws_lambda" ->
  Action input = "execute" -> Mock input = false -> wfs !! uid = None ->
  (forall x, run <> RunPanic (PanicOther x)) ->
  handleTemplateExecute C wfs (post uid input)
  = (Reply (mkNodeResult NodeRunning "started aws lambda function async execution") (Some 5),
     <[uid := lambda_initial_record]> wfs)
  /\ (let wfs2 := <[uid := fst (fst (InvokeLambdaFunctionAsync run lambda_initial_record))]>
                   (<[uid := lambda_initial_record]> wfs) in
      snd (handleTemplateExecute C wfs2 (post uid input)) = wfs2
      /\ exists m, fst (handleTemplateExecute C wfs2 (post uid input))
                   = Reply (mkNodeResult (match run with RunOk _ => NodeSucceeded | _ => NodeError end) m)
                           None).
Proof.
  intros HV HS HA HM HL Hrun.
  destruct (Validate_fields _ _ _ HV) as (ES & EA & EM & _).
  unfold handleTemplateExecute, template_execute, post; simpl. rewrite HV.
  unfold dispatch. rewrite EM, HM, ES, HS, EA, HA. simpl. rewrite HL, lookup_insert_eq.
  split; [reflexivity|].
  destruct run as [e|e|e|e|[pm|x]|b];
    [..| exfalso; exact (Hrun x eq_refl) |];
    simpl; (split; [reflexivity|]); eexists; reflexivity.
Qed.

Lemma lambda_start_run_poll_witness :
  Validate (sample_request "aws_lambda" "execute" false "")
  = (set_ResourceArn (sample_request "aws_lambda" "execute" false "")
       "arn:aws:lambda:us-west-2:100000000002:function:MyFunction", None)
  /\ handleTemplateExecute (sample_collaborators "" "") ∅
       (post "u" (sample_request "aws_lambda" "execute" false ""))
     = (Reply (mkNodeResult NodeRunning "started aws lambda function async execution") (Some 5),
        <["u" := lambda_initial_record]> ∅).
Proof.
  split; [reflexivity|].
  exact (proj1 (lambda_start_run_poll (sample_collaborators "" "") ∅ "u"
                  (sample_request "aws_lambda" "execute" false "")
                  (set_ResourceArn (sample_request "aws_lambda" "execute" false "")
                     "arn:aws:lambda:us-west-2:100000000002:function:MyFunction")
                  (RunOk "{}") eq_refl eq_refl eq_refl eq_refl (lookup_empty "u")
                  (fun x H => ltac:(discriminate H)))).
Defined.

(** The detached runner touches the record only through one guarded
    write ([Lock], status, message, [Unlock]) or not at all, never
    changes its [ID], and writes nothing exactly when it panics with a
    non-[error] value. *)
Theorem invoke_lambda_writes_guarded (run : lambda_run) (wf : PluginWorkflow) :
  ID (fst (fst (InvokeLambdaFunctionAsync run wf))) = ID wf
  /\ (snd (fst (InvokeLambdaFunctionAsync run wf)) = []
      \/ exists s m, snd (fst (InvokeLambdaFunctionAsync run wf)) = guarded_write s m)
  /\ (snd (fst (InvokeLambdaFunctionAsync run wf)) = [] <-> exists x, run = RunPanic (PanicOther x)).
Proof.
  destruct run as [e|e|e|e|[m|x]|b]; simpl;
    (split; [reflexivity|]);
    try (split; [right; eexists _, _; reflexivity
                | split; [discriminate | intros [x' Hx']; discriminate]]).
  split; [left; reflexivity | split; [intros _; eauto | reflexivity]].
Qed.

(** ** The validate action *)

(** A validated, non-mock [validate] request never changes the tracker
    and is answered without requeue: phase Succeeded exactly when the
    service's describe call (and the marshalling of its output)
    succeeded, phase Error otherwise. *)
Theorem validate_action_check (C : Collaborators) (wfs : Tracker) (uid : string)
    (input input' : PluginRequest) :
  Validate input = (input', None) -> Action input = "validate" -> Mock input = false ->
  snd (handleTemplateExecute C wfs (post uid input)) = wfs
  /\ exists ph m, fst (handleTemplateExecute C wfs (post uid input)) = Reply (mkNodeResult ph m) None
     /\ (ph = NodeSucceeded <-> exists b, existence_call C input' = Some (CallOk tt b))
     /\ (ph = NodeSucceeded \/ ph = NodeError).
Proof.
  intros HV HA HM.
  destruct (Validate_fields _ _ _ HV) as (ES & EA & EM & _).
  destruct (Validate_ok _ _ HV) as (HS & _).
  apply exists_key_allowedServiceNames in HS.
  unfold handleTemplateExecute, template_execute, post; simpl. rewrite HV.
  unfold dispatch, existence_call. rewrite EM, HM, ES, EA, HA. simpl.
  destruct HS as [H|[H|[H|H]]]; rewrite H; simpl;
    unfold CheckIfSageMakerPipelineExists, CheckIfGlueJobExists, CheckIfStepFunctionExists,
      CheckIfLambdaFunctionExists, check_exists;
    (split; [reflexivity|]);
    match goal with |- context [match ?r with SessionError _ => _ | _ => _ end] =>
      destruct r as [e|e|e|[] b] end;
    simpl; eexists _, _; (split; [reflexivity|]);
    (split; [first [ split; [discriminate | intros [b' Hb]; discriminate]
                   | split; [intros _; eauto | reflexivity] ]
            | tauto]).
Qed.

Lemma validate_action_check_witness :
  Validate (sample_request "aws_glue" "validate" false "")
  = (set_ResourceArn (sample_request "aws_glue" "validate" false "")
       "arn:aws:glue:us-west-2:100000000002:job/MyGlueJob", None)
  /\ snd (handleTemplateExecute (sample_collaborators "" "") ∅
            (post "u" (sample_request "aws_glue" "validate" false ""))) = ∅.
Proof.
  split; [reflexivity|].
  exact (proj1 (validate_action_check (sample_collaborators "" "") ∅ "u"
                  (sample_request "aws_glue" "validate" false "")
                  (set_ResourceArn (sample_request "aws_glue" "validate" false "")
                     "arn:aws:glue:us-west-2:100000000002:job/MyGlueJob")
                  eq_refl eq_refl eq_refl)).
Defined.

(** ** Configure *)

(** [Configure] never replaces an existing [Workflows] map: when it
    succeeds the map is the one the plugin had, or a fresh empty one when
    it had none; when it fails (no in-cluster config, or no client) the
    map is left as it was, [nil] included.  It never changes the port. *)
Theorem configure_keeps_workflows (env : ClusterEnv) (ex : ExecutorPlugin) :
  (snd (Configure env ex) = None ->
   Workflows (fst (Configure env ex)) = Some (match Workflows ex with Some w => w | None => ∅ end))
  /\ (snd (Configure env ex) <> None -> Workflows (fst (Configure env ex)) = Workflows ex)
  /\ Port (fst (Configure env ex)) = Port ex.
Proof.
  destruct ex as [port lg cfg cl dbg wf]. unfold Configure. simpl.
  destruct lg, cfg as [c|], (InClusterConfig env) as [e|c'], cl as [k|]; simpl;
    try (destruct (NewForConfig env _) as [e'|k']); simpl;
    destruct wf; simpl; (split; [|split]); intros; try reflexivity; congruence.
Qed.

(** ** Mock requests *)

Lemma Validate_mock_state (r r' : PluginRequest) :
  Validate r = (r', None) -> Mock r = true ->
  MockState r = "running" \/ MockState r = "success".
Proof.
  intros H HM. apply exists_key_allowedMockStates.
  unfold Validate in H.
  destruct (is_empty (AccountID r)); [discriminate|].
  destruct (is_empty (ServiceName r)); [discriminate|].
  destruct (is_empty (Action r)); [discriminate|].
  destruct (is_empty (RegionName r)); [discriminate|].
  destruct (negb (exists_key allowedServiceNames (ServiceName r))); [discriminate|].
  destruct (negb (exists_key allowedActions (Action r))); [discriminate|].
  destruct (service_arn r) as [[[e|] arn]|]; simpl in H; [discriminate| |];
    rewrite HM in H;
    destruct (is_empty (MockState r)); [discriminate| |discriminate|];
    destruct (exists_key allowedMockStates (MockState r)); simpl in H;
    first [reflexivity | discriminate].
Qed.

(** A validated mock request is answered from its [mock_state] alone:
    the reply is the same whatever the collaborators, the tracker or the
    workflow id, and the tracker is left as it is. *)
Theorem mock_reply_independent (C1 C2 : Collaborators) (wfs1 wfs2 : Tracker)
    (uid1 uid2 : string) (input input' : PluginRequest) :
  Validate input = (input', None) -> Mock input = true ->
  handleTemplateExecute C1 wfs1 (post uid1 input)
  = (fst (handleTemplateExecute C2 wfs2 (post uid2 input)), wfs1).
Proof.
  intros HV HM.
  destruct (Validate_mock_state _ _ HV HM) as [HS|HS];
  destruct (Validate_fields _ _ _ HV) as (_ & _ & EM & ES & _);
  unfold handleTemplateExecute, template_execute, post; simpl; rewrite HV;
  unfold dispatch; rewrite EM, HM, ES, HS; reflexivity.
Qed.

Lemma mock_reply_independent_witness :
  Validate (sample_request "aws_step_functions" "execute" true "success")
  = (set_ResourceArn (sample_request "aws_step_functions" "execute" true "success")
       "arn:aws:states:us-west-2:100000000002:stateMachine:MyStateMachine", None)
  /\ handleTemplateExecute (sample_collaborators "a" "FAILED") ∅
       (post "u" (sample_request "aws_step_functions" "execute" true "success"))
     = (fst (handleTemplateExecute (sample_collaborators "b" "RUNNING")
               {[ "v" := lambda_initial_record ]}
               (post "v" (sample_request "aws_step_functions" "execute" true "success"))), ∅).
Proof.
  split; [reflexivity|].
  exact (mock_reply_independent (sample_collaborators "a" "FAILED") (sample_collaborators "b" "RUNNING")
           ∅ {[ "v" := lambda_initial_record ]} "u" "v"
           (sample_request "aws_step_functions" "execute" true "success")
           (set_ResourceArn (sample_request "aws_step_functions" "execute" true "success")
              "arn:aws:states:us-west-2:100000000002:stateMachine:MyStateMachine")
           eq_refl eq_refl).
Defined.
